(** * MovieVerse API: booking engine and authentication layer

    A shallow embedding of [main.py] and [schemas.py].  Request handlers are
    functions in a small state-and-exception monad over the document store;
    the third-party libraries the handlers call (PyJWT, passlib) appear as
    interfaces, together with the part of their documented contract a
    statement relies on. *)

From Stdlib Require Import ZArith NArith String Ascii PrimFloat.
From stdpp Require Import base option list gmap strings countable pretty.

Local Open Scope string_scope.
Local Open Scope list_scope.
Local Open Scope Z_scope.

(** ** Python strings

    A [str] is modelled as a [string] of code points below 256 (an HTTP
    header value reaches the handler decoded as Latin-1). *)

Module Py.

(** [str.isspace] on one code point: TAB..CR, FS..US, SPACE, NEL, NBSP. *)
Definition isspace (c : ascii) : bool :=
  let n := N_of_ascii c in
  (((9 <=? n) && (n <=? 13)) || ((28 <=? n) && (n <=? 32))
   || (n =? 133) || (n =? 160))%N.

(** [str.lower] on one code point: A..Z and the Latin-1 capitals
    (0xC0..0xDE without the multiplication sign 0xD7) move up by 32. *)
Definition lower_char (c : ascii) : ascii :=
  let n := N_of_ascii c in
  if (((65 <=? n) && (n <=? 90))
      || ((192 <=? n) && (n <=? 222) && negb (n =? 215)))%N
  then ascii_of_N (n + 32) else c.

Fixpoint lower (s : string) : string :=
  match s with
  | EmptyString => EmptyString
  | String c s' => String (lower_char c) (lower s')
  end.

(** [s.split()]: the maximal runs of non-whitespace characters.  [word] is
    the run being read. *)
Fixpoint split_go (word s : string) : list string :=
  match s with
  | EmptyString => if decide (word = "") then [] else [word]
  | String c s' =>
      if isspace c
      then (if decide (word = "") then [] else [word]) ++ split_go "" s'
      else split_go (word +:+ String c "") s'
  end.

Definition split (s : string) : list string := split_go "" s.

(** [s.split(sep)] for a one-character separator: never empty, [""] splits
    into [[""]]. *)
Fixpoint split_on (sep : ascii) (s : string) : list string :=
  match s with
  | EmptyString => [""]
  | String c s' =>
      if decide (c = sep) then "" :: split_on sep s'
      else match split_on sep s' with
           | w :: ws => String c w :: ws
           | [] => [String c ""]
           end
  end.

(** [sub in s] *)
Fixpoint contains (sub s : string) : bool :=
  String.prefix sub s
  || match s with
     | EmptyString => false
     | String _ s' => contains sub s'
     end.

(** Exceptions the handlers can meet. *)
Inductive Exc : Type :=
| TypeError
| KeyError (key : string)
| IndexError
| ValueError (msg : string)
| ValidationError
| UnknownHashError
| ExpiredSignatureError
| InvalidSignatureError
| DecodeError
| Exception (msg : string).

End Py.

(** ** Failures of a request

    A handler either raises [HTTPException], which the framework turns into a
    response with that status code, or lets another exception escape, which
    the framework answers with status 500. *)

Inductive Failure : Type :=
| HTTPException (status_code : Z) (detail : string)
| Unhandled (e : Py.Exc).

Definition status_of (f : Failure) : Z :=
  match f with
  | HTTPException code _ => code
  | Unhandled _ => 500
  end.

(** ** schemas.py: one record per collection *)

Module User.
Record t : Type := mk
  { name : string;
    email : string;
    password_hash : string;
    role : string;
    is_active : bool }.
End User.

Module Theatre.
Record t : Type := mk
  { name : string;
    city : string;
    address : option string }.
End Theatre.

Module Show.
Record t : Type := mk
  { theatre_id : string;
    movie_id : Z;
    show_time : Z;
    price : float;
    seats_total : Z }.
End Show.

Module Booking.
Record t : Type := mk
  { user_id : string;
    show_id : string;
    seats : list string;
    amount : float;
    payment_status : string;
    payment_provider : option string }.
End Booking.

(** ** Request bodies of main.py *)

Record AuthPayload : Type :=
  { ap_email : string; ap_password : string; ap_name : option string }.

Record TheatrePayload : Type :=
  { tp_name : string; tp_city : string; tp_address : option string }.

Record ShowPayload : Type :=
  { sp_theatre_id : string;
    sp_movie_id : Z;
    sp_show_time : Z;
    sp_price : float;
    sp_seats_total : Z }.

Record BookingPayload : Type :=
  { bp_show_id : string; bp_seats : list string; bp_amount : float }.

(** ** The document store

    [db] of main.py is either [None] (not configured) or a database whose
    collections hold the stored documents, each with its [_id]. *)

Definition ObjectId : Type := N.

Record Store : Type := mkStore
  { coll_user : list (ObjectId * User.t);
    coll_theatre : list (ObjectId * Theatre.t);
    coll_show : list (ObjectId * Show.t);
    coll_booking : list (ObjectId * Booking.t);
    next_oid : ObjectId }.

Definition empty_store : Store := mkStore [] [] [] [] 0%N.

(** A schema class names its collection. *)
Class Collection (D : Type) : Type :=
  { coll_name : string;
    coll_get : Store -> list (ObjectId * D);
    coll_set : list (ObjectId * D) -> Store -> Store }.

#[global] Instance user_collection : Collection User.t :=
  {| coll_name := "user";
     coll_get := coll_user;
     coll_set := fun c st =>
       mkStore c (coll_theatre st) (coll_show st) (coll_booking st) (next_oid st) |}.

#[global] Instance theatre_collection : Collection Theatre.t :=
  {| coll_name := "theatre";
     coll_get := coll_theatre;
     coll_set := fun c st =>
       mkStore (coll_user st) c (coll_show st) (coll_booking st) (next_oid st) |}.

#[global] Instance show_collection : Collection Show.t :=
  {| coll_name := "show";
     coll_get := coll_show;
     coll_set := fun c st =>
       mkStore (coll_user st) (coll_theatre st) c (coll_booking st) (next_oid st) |}.

#[global] Instance booking_collection : Collection Booking.t :=
  {| coll_name := "booking";
     coll_get := coll_booking;
     coll_set := fun c st =>
       mkStore (coll_user st) (coll_theatre st) (coll_show st) c (next_oid st) |}.

(** ** Handlers: state over [db], failure as a result *)

Definition Handler (A : Type) : Type :=
  option Store -> (Failure + A) * option Store.

#[global] Instance handler_ret : MRet Handler :=
  fun A a db => (inr a, db).

#[global] Instance handler_bind : MBind Handler :=
  fun A B k m db =>
    match m db with
    | (inl f, db') => (inl f, db')
    | (inr a, db') => k a db'
    end.

Definition raise {A : Type} (f : Failure) : Handler A :=
  fun db => (inl f, db).

(** [db is None] *)
Definition db_is_None : Handler bool :=
  fun db => (inr (bool_decide (db = None :> option Store)), db).

(** [db[name]]: subscripting [None] raises [TypeError]. *)
Definition db_getitem (D : Type) `{Collection D} : Handler (list (ObjectId * D)) :=
  fun db =>
    match db with
    | None => (inl (Unhandled Py.TypeError), db)
    | Some st => (inr (coll_get st), db)
    end.

(** Modelled from the spec: [database.create_document], the store's [insert]
    (section 1 of the specification; database.py is not among the sources).
    It appends the record to its collection under a fresh [_id] and returns
    that id as a string; without a configured database it raises. *)
Definition create_document {D : Type} `{Collection D} (data : D) : Handler string :=
  fun db =>
    match db with
    | None => (inl (Unhandled (Py.Exception "Database not available")), db)
    | Some st =>
        let oid := next_oid st in
        let st' := coll_set (coll_get st ++ [(oid, data)]) st in
        (inr (pretty oid),
         Some (mkStore (coll_user st') (coll_theatre st') (coll_show st')
                       (coll_booking st') (N.succ oid)))
    end.

(** ** Token claims: the [dict] a token carries *)

Inductive JVal : Type :=
| JStr (s : string)
| JInt (n : Z).

#[global] Instance JVal_eq_dec : EqDecision JVal.
Proof. solve_decision. Defined.

(** ** Bookings (main.py, [create_booking]) *)

Record BookingResponse : Type :=
  { br_id : string; br_status : string }.

(** The filter [{"show_id": show_id, "seats": {"$in": seats}}]: a document
    matches when its [show_id] is the given one and its [seats] array holds
    at least one of the given labels. *)
Definition booking_filter (show_id : string) (seats : list string)
    (d : ObjectId * Booking.t) : bool :=
  bool_decide (Booking.show_id d.2 = show_id)
  && existsb (fun s => bool_decide (s ∈ seats)) (Booking.seats d.2).

(** [collection.find_one(filter)] *)
Definition find_one {D : Type} (flt : ObjectId * D -> bool)
    (c : list (ObjectId * D)) : option (ObjectId * D) :=
  List.find flt c.

(** [user[key]] on the claims of the caller. *)
Definition claims_getitem (user : gmap string JVal) (key : string) : Handler JVal :=
  match user !! key with
  | Some v => mret v
  | None => raise (Unhandled (Py.KeyError key))
  end.

(** [Booking(user_id=..., show_id=..., seats=..., amount=...)]: [user_id] must
    be a [str]; [payment_status] and [payment_provider] take their defaults. *)
Definition Booking_new (user_id : JVal) (show_id : string) (seats : list string)
    (amount : float) : Handler Booking.t :=
  match user_id with
  | JStr uid => mret (Booking.mk uid show_id seats amount "pending" None)
  | JInt _ => raise (Unhandled Py.ValidationError)
  end.

Definition SeatConflict : Failure :=
  HTTPException 400 "Some seats already booked".

Definition create_booking (payload : BookingPayload) (user : gmap string JVal)
  : Handler BookingResponse :=
  bookings ← db_getitem Booking.t;
  let taken := find_one (booking_filter (bp_show_id payload) (bp_seats payload)) bookings in
  match taken with
  | Some _ => raise SeatConflict
  | None =>
      sub ← claims_getitem user "sub";
      booking ← Booking_new sub (bp_show_id payload) (bp_seats payload) (bp_amount payload);
      _id ← create_document booking;
      mret {| br_id := _id; br_status := "pending_payment" |}
  end.

(** ** Third-party libraries and process configuration *)

(** PyJWT, as main.py calls it: [jwt.encode(payload, key, algorithm="HS256")]
    and [jwt.decode(token, key, algorithms=["HS256"])], the latter at clock
    time [now] (seconds since the epoch).  [jwt.encode] stores a [datetime]
    under ["exp"] as its integer timestamp; the model holds that integer from
    the start. *)
Class Jwt : Type :=
  { jwt_encode : gmap string JVal -> string -> string;
    jwt_decode : string -> string -> Z -> Py.Exc + gmap string JVal }.

(** passlib's bcrypt handler: hashing under a salt drawn by the caller, which
    raises on a secret the handler does not take (one with a NUL byte, for
    one), and verification of a hash the handler has recognised as its own. *)
Class Passlib : Type :=
  { bcrypt_hash : string -> string -> Py.Exc + string;
    bcrypt_verify : string -> string -> Py.Exc + bool }.

(** The environment the process was started in. *)
Class Process : Type :=
  { getenv : string -> option string }.

Definition JWT_SECRET `{Process} : string :=
  default "devsecret" (getenv "JWT_SECRET").

Definition ACCESS_TOKEN_EXPIRE_MINUTES : Z := 60 * 24.

(** [timedelta(minutes=m)] in seconds. *)
Definition minutes (m : Z) : Z := 60 * m.

(** The identifying prefixes of a bcrypt hash. *)
Definition bcrypt_ident_values : list string :=
  ["$2$"; "$2a$"; "$2x$"; "$2y$"; "$2b$"].

Definition bcrypt_identify (hash : string) : bool :=
  existsb (fun ident => String.prefix ident hash) bcrypt_ident_values.

(** [pwd_context = CryptContext(schemes=["bcrypt"])]: [verify] first finds the
    scheme whose handler identifies the hash and raises [UnknownHashError]
    ("hash could not be identified") when none does. *)
Definition pwd_context_verify `{Passlib} (secret hash : string) : Py.Exc + bool :=
  if bcrypt_identify hash then bcrypt_verify secret hash
  else inl Py.UnknownHashError.

Definition pwd_context_hash `{Passlib} (salt secret : string) : Py.Exc + string :=
  bcrypt_hash salt secret.

(** ** Utils (main.py) *)

Definition create_access_token `{Jwt, Process} (now : Z)
    (data : gmap string JVal) (expires_delta : option Z) : string :=
  let to_encode := data in
  let delta :=
    match expires_delta with
    | Some d => if decide (d = 0) then minutes ACCESS_TOKEN_EXPIRE_MINUTES else d
    | None => minutes ACCESS_TOKEN_EXPIRE_MINUTES
    end in
  let expire := now + delta in
  jwt_encode (<["exp" := JInt expire]> to_encode) JWT_SECRET.

Definition verify_password `{Passlib} (plain hashed : string) : Py.Exc + bool :=
  pwd_context_verify plain hashed.

Definition get_password_hash `{Passlib} (salt password : string) : Py.Exc + string :=
  pwd_context_hash salt password.

Definition MissingCredentials : Failure :=
  HTTPException 401 "Missing Authorization header".

Definition InvalidToken : Failure :=
  HTTPException 401 "Invalid or expired token".

(** The body of the [try] in [get_current_user]. *)
Definition get_current_user_try `{Jwt, Process} (now : Z) (authorization : string)
  : Py.Exc + gmap string JVal :=
  match Py.split authorization with
  | [scheme; token] =>
      if decide (Py.lower scheme ≠ "bearer")
      then inl (Py.ValueError "Invalid auth scheme")
      else jwt_decode token JWT_SECRET now
  | _ => inl (Py.ValueError "unpack")
  end.

Definition get_current_user `{Jwt, Process} (now : Z) (authorization : option string)
  : Failure + gmap string JVal :=
  match authorization with
  | None | Some "" => inl MissingCredentials
  | Some header =>
      match get_current_user_try now header with
      | inr payload => inr payload
      | inl _ => inl InvalidToken
      end
  end.

(** ** Auth (main.py) *)

Record TokenResponse : Type :=
  { access_token : string; token_type : string }.

Definition DuplicateEmail : Failure :=
  HTTPException 400 "Email already registered".

Definition NotConfigured : Failure :=
  HTTPException 500 "Database not configured".

Definition InvalidCredentials : Failure :=
  HTTPException 400 "Invalid credentials".

Definition email_filter (email : string) (d : ObjectId * User.t) : bool :=
  bool_decide (User.email d.2 = email).

(** [l[0]] *)
Definition list_getitem0 {A : Type} (l : list A) : Handler A :=
  match l with
  | x :: _ => mret x
  | [] => raise (Unhandled Py.IndexError)
  end.

(** [payload.name or payload.email.split("@")[0]] *)
Definition register_name (payload : AuthPayload) : Handler string :=
  match ap_name payload with
  | None | Some "" => list_getitem0 (Py.split_on "@" (ap_email payload))
  | Some n => mret n
  end.

Definition register `{Jwt, Passlib, Process} (now : Z) (salt : string)
    (payload : AuthPayload) : Handler TokenResponse :=
  none ← db_is_None;
  if none : bool then raise NotConfigured
  else
    users ← db_getitem User.t;
    match find_one (email_filter (ap_email payload)) users with
    | Some _ => raise DuplicateEmail
    | None =>
        name ← register_name payload;
        match get_password_hash salt (ap_password payload) with
        | inl exc => raise (Unhandled exc)
        | inr password_hash =>
            let user_doc :=
              User.mk name (ap_email payload) password_hash "user" true in
            user_id ← create_document user_doc;
            let token :=
              create_access_token now
                {[ "sub" := JStr user_id;
                   "email" := JStr (ap_email payload);
                   "role" := JStr "user" ]} None in
            mret {| access_token := token; token_type := "bearer" |}
        end
    end.

Definition login `{Jwt, Passlib, Process} (now : Z) (payload : AuthPayload)
  : Handler TokenResponse :=
  none ← db_is_None;
  if none : bool then raise NotConfigured
  else
    users ← db_getitem User.t;
    match find_one (email_filter (ap_email payload)) users with
    | None => raise InvalidCredentials
    | Some doc =>
        match verify_password (ap_password payload) (User.password_hash doc.2) with
        | inl e => raise (Unhandled e)
        | inr false => raise InvalidCredentials
        | inr true =>
            let token :=
              create_access_token now
                {[ "sub" := JStr (pretty doc.1);
                   "email" := JStr (User.email doc.2);
                   "role" := JStr (User.role doc.2) ]} None in
            mret {| access_token := token; token_type := "bearer" |}
        end
    end.

(** ** Theatres and shows (main.py) *)

Definition Forbidden : Failure := HTTPException 403 "Admin only".

(** [user.get("role") != "admin"] *)
Definition not_admin (user : gmap string JVal) : bool :=
  bool_decide (user !! "role" ≠ Some (JStr "admin")).

Definition create_theatre (payload : TheatrePayload) (user : gmap string JVal)
  : Handler string :=
  if not_admin user then raise Forbidden
  else
    let theatre := Theatre.mk (tp_name payload) (tp_city payload) (tp_address payload) in
    _id ← create_document theatre;
    mret _id.

(** [Show] built from the fields of the payload: the schema validates
    [price >= 0] and [1 <= seats_total <= 300]. *)
Definition Show_new (payload : ShowPayload) : Handler Show.t :=
  if PrimFloat.leb 0%float (sp_price payload)
     && bool_decide (1 <= sp_seats_total payload <= 300)
  then mret (Show.mk (sp_theatre_id payload) (sp_movie_id payload)
                     (sp_show_time payload) (sp_price payload)
                     (sp_seats_total payload))
  else raise (Unhandled Py.ValidationError).

Definition create_show (payload : ShowPayload) (user : gmap string JVal)
  : Handler string :=
  if not_admin user then raise Forbidden
  else
    show ← Show_new payload;
    _id ← create_document show;
    mret _id.

(** ** Properties of the store that the statements below speak about *)

Definition bookings_of (db : option Store) : list (ObjectId * Booking.t) :=
  match db with
  | Some st => coll_booking st
  | None => []
  end.

Definition users_of (db : option Store) : list (ObjectId * User.t) :=
  match db with
  | Some st => coll_user st
  | None => []
  end.

(** The seats held for a show: the seat lists, in order, of the bookings of
    that show which are not cancelled. *)
Definition seats_held (cancelled : Booking.t -> bool) (show_id : string)
    (bs : list (ObjectId * Booking.t)) : list string :=
  concat (map (fun d => Booking.seats d.2)
              (List.filter
                 (fun d => bool_decide (Booking.show_id d.2 = show_id)
                           && negb (cancelled d.2)) bs)).

(** No seat is double-booked. *)
Definition no_double_booking (cancelled : Booking.t -> bool) (db : option Store) : Prop :=
  forall show_id, NoDup (seats_held cancelled show_id (bookings_of db)).

(** A booking of the show already holds one of the requested seats. *)
Definition seat_taken (db : option Store) (show_id : string) (seats : list string) : Prop :=
  exists d s,
    d ∈ bookings_of db /\ Booking.show_id d.2 = show_id
    /\ s ∈ Booking.seats d.2 /\ s ∈ seats.

(** The failure names a seat that is both requested and already held. *)
Definition names_contested_seat (f : Failure) (db : option Store)
    (show_id : string) (seats : list string) : Prop :=
  exists code detail s,
    f = HTTPException code detail
    /\ seat_taken db show_id [s] /\ s ∈ seats
    /\ Py.contains s detail = true.

(** The part of an address before its first ["@"], in the words of the
    interface description: [email] is [l ++ "@" ++ r] with no ["@"] in [l]. *)
Definition is_local_part (l email : string) : Prop :=
  (exists r, email = l +:+ "@" +:+ r) /\ Py.contains "@" l = false.

(** ** Stand-ins for the libraries, to run the handlers on concrete requests *)

#[global] Instance JVal_countable : Countable JVal :=
  inj_countable'
    (fun v => match v with JStr s => inl s | JInt n => inr n end)
    (fun x => match x with inl s => JStr s | inr n => JInt n end)
    (fun v => match v with JStr _ | JInt _ => eq_refl end).

Module Ref.

Fixpoint pos_to_bits (p : positive) : string :=
  match p with
  | xH => ""
  | xO p' => String "0" (pos_to_bits p')
  | xI p' => String "1" (pos_to_bits p')
  end.

Fixpoint bits_to_pos (s : string) : option positive :=
  match s with
  | EmptyString => Some xH
  | String c s' =>
      match bits_to_pos s' with
      | Some p =>
          if decide (c = "0"%char) then Some (xO p)
          else if decide (c = "1"%char) then Some (xI p)
          else None
      | None => None
      end
  end.

(** A token is the letter t followed by the binary numeral that codes the
    signing key together with the claims. *)
Definition encode (payload : gmap string JVal) (key : string) : string :=
  String "t" (pos_to_bits (countable.encode (key, payload))).

Definition check_exp (payload : gmap string JVal) (now : Z)
  : Py.Exc + gmap string JVal :=
  match payload !! "exp" with
  | Some (JInt e) =>
      if decide (e <= now) then inl Py.ExpiredSignatureError else inr payload
  | Some (JStr _) => inl Py.DecodeError
  | None => inr payload
  end.

Definition decode (token key : string) (now : Z) : Py.Exc + gmap string JVal :=
  match token with
  | String "t" bits =>
      match bits_to_pos bits ≫= countable.decode (A := string * gmap string JVal) with
      | Some (key', payload) =>
          if decide (key' = key) then check_exp payload now
          else inl Py.InvalidSignatureError
      | None => inl Py.DecodeError
      end
  | _ => inl Py.DecodeError
  end.

Definition jwt : Jwt := {| jwt_encode := encode; jwt_decode := decode |}.

Definition passlib : Passlib :=
  {| bcrypt_hash := fun salt secret =>
       if bool_decide (Ascii.zero ∈ list_ascii_of_string secret)
       then inl (Py.ValueError "NULL bytes in password")
       else inr ("$2b$12$" +:+ salt +:+ "$" +:+ secret);
     bcrypt_verify := fun secret hash =>
       inr (bool_decide
              (String.substring 30 (String.length hash - 30) hash = secret)) |}.

Definition process : Process := {| getenv := fun _ => None |}.

End Ref.

(** Claims that [jwt.decode], called as main.py calls it, has nothing to
    object to but the expiry: none of the registered claims it validates
    besides "exp" ("aud", "iss", "nbf", "iat", "jti") is present, and the
    subject, if there is one, is a string. *)
Definition plain_claims (payload : gmap string JVal) : Prop :=
  payload !! "aud" = None /\ payload !! "iss" = None /\ payload !! "nbf" = None
  /\ payload !! "iat" = None /\ payload !! "jti" = None
  /\ match payload !! "sub" with
     | Some (JInt _) => False
     | _ => True
     end.

(** The contract of PyJWT the token statements rest on. *)
Class JwtContract (J : Jwt) : Prop :=
  { (** a token is compact: not empty, no blank in it *)
    jwt_token_nonempty : forall payload key, jwt_encode payload key <> "";
    jwt_token_noblank : forall payload key c,
      c ∈ list_ascii_of_string (jwt_encode payload key) -> Py.isspace c = false;
    (** decoding plain claims under the signing key before the expiry returns
        them *)
    jwt_decode_encode : forall payload key now e,
      plain_claims payload ->
      payload !! "exp" = Some (JInt e) -> now < e ->
      jwt_decode (jwt_encode payload key) key now = inr payload;
    (** a token whose expiry has passed is refused, whatever key signed it *)
    jwt_decode_expired : forall payload key key' now e,
      payload !! "exp" = Some (JInt e) -> e <= now ->
      exists exc, jwt_decode (jwt_encode payload key') key now = inl exc }.

(** ** Listings (main.py, [list_theatres], [list_shows], [my_bookings]) *)

(** Modelled from the spec: [database.get_documents], the store's [find_many]
    (section 1 of the specification; database.py is not among the sources).
    It returns the documents of the collection that match the filter, in
    stored order; without a configured database it raises. *)
Definition get_documents {D : Type} `{Collection D} (flt : ObjectId * D -> bool)
  : Handler (list (ObjectId * D)) :=
  fun db =>
    match db with
    | None => (inl (Unhandled (Py.Exception "Database not available")), db)
    | Some st => (inr (List.filter flt (coll_get st)), db)
    end.

(** The loop [for d in docs: d["_id"] = str(d["_id"])] *)
Definition stringify_ids {D : Type} (docs : list (ObjectId * D)) : list (string * D) :=
  map (fun d => (pretty d.1, d.2)) docs.

(** [{"city": city} if city else {}] *)
Definition theatre_query (city : option string) (d : ObjectId * Theatre.t) : bool :=
  match city with
  | None | Some "" => true
  | Some c => bool_decide (Theatre.city d.2 = c)
  end.

Definition list_theatres (city : option string) : Handler (list (string * Theatre.t)) :=
  docs ← get_documents (theatre_query city);
  mret (stringify_ids docs).

(** The query of [list_shows]: [theatre_id] is added when it is truthy,
    [movie_id] when it is not [None]. *)
Definition show_query (theatre_id : option string) (movie_id : option Z)
    (d : ObjectId * Show.t) : bool :=
  match theatre_id with
  | None | Some "" => true
  | Some t => bool_decide (Show.theatre_id d.2 = t)
  end
  && match movie_id with
     | None => true
     | Some m => bool_decide (Show.movie_id d.2 = m)
     end.

Definition list_shows (theatre_id : option string) (movie_id : option Z)
  : Handler (list (string * Show.t)) :=
  docs ← get_documents (show_query theatre_id movie_id);
  mret (stringify_ids docs).

(** [{"user_id": user["sub"]}]: the stored [user_id] is a string, so a
    subject that is not a string matches no booking. *)
Definition user_id_filter (sub : JVal) (d : ObjectId * Booking.t) : bool :=
  match sub with
  | JStr uid => bool_decide (Booking.user_id d.2 = uid)
  | JInt _ => false
  end.

Definition my_bookings (user : gmap string JVal) : Handler (list (string * Booking.t)) :=
  sub ← claims_getitem user "sub";
  docs ← get_documents (user_id_filter sub);
  mret (stringify_ids docs).

(** ** Routes with [user=Depends(get_current_user)]

    The framework calls the dependency on the [Authorization] header before
    the handler; what the dependency raises is the response, and the handler
    is not run. *)
Definition Depends_get_current_user `{Jwt, Process} {A : Type} (now : Z)
    (authorization : option string) (handler : gmap string JVal -> Handler A)
  : Handler A :=
  match get_current_user now authorization with
  | inl f => raise f
  | inr user => handler user
  end.

Definition post_theatres `{Jwt, Process} (now : Z) (authorization : option string)
    (payload : TheatrePayload) : Handler string :=
  Depends_get_current_user now authorization (create_theatre payload).

Definition post_shows `{Jwt, Process} (now : Z) (authorization : option string)
    (payload : ShowPayload) : Handler string :=
  Depends_get_current_user now authorization (create_show payload).

(** ** Further properties of the store and of the libraries *)

Definition theatres_of (db : option Store) : list (ObjectId * Theatre.t) :=
  match db with
  | Some st => coll_theatre st
  | None => []
  end.

Definition shows_of (db : option Store) : list (ObjectId * Show.t) :=
  match db with
  | Some st => coll_show st
  | None => []
  end.

(** No two user records carry the same email. *)
Definition emails_unique (db : option Store) : Prop :=
  NoDup (map (fun d => User.email d.2) (users_of db)).

(** Every record of [db] is still in [db'], at its place: the collections of
    [db'] start with those of [db]. *)
Definition store_extends (db db' : option Store) : Prop :=
  users_of db `prefix_of` users_of db'
  /\ theatres_of db `prefix_of` theatres_of db'
  /\ shows_of db `prefix_of` shows_of db'
  /\ bookings_of db `prefix_of` bookings_of db'.

(** The lifetime [create_access_token] gives a token: a zero [expires_delta]
    is falsy and gives way to the default. *)
Definition lifetime (expires_delta : option Z) : Z :=
  match expires_delta with
  | Some d => if decide (d = 0) then 86400 else d
  | None => 86400
  end.

(** The contract of passlib's bcrypt handler the login statements rest on: a
    hash the handler returned under a salt of 22 characters is identified as
    bcrypt and verifies the secret it was made from. *)
Class PasslibContract (L : Passlib) : Prop :=
  { bcrypt_hash_identified : forall salt secret hash,
      String.length salt = 22%nat ->
      bcrypt_hash salt secret = inr hash ->
      bcrypt_identify hash = true;
    bcrypt_verify_hash : forall salt secret hash,
      String.length salt = 22%nat ->
      bcrypt_hash salt secret = inr hash ->
      bcrypt_verify secret hash = inr true }.

(** ** Sample data for the examples *)

(** A store with one pending booking of seats A1 and A2 for show s1. *)
Definition store_A1A2 : Store :=
  mkStore [] [] []
    [(0%N, Booking.mk "u1" "s1" ["A1"; "A2"] 500%float "pending" None)] 1%N.

Definition is_cancelled (b : Booking.t) : bool :=
  bool_decide (Booking.payment_status b = "cancelled").

Definition caller_u2 : gmap string JVal :=
  {[ "sub" := JStr "u2"; "email" := JStr "bob@example.org"; "role" := JStr "user" ]}.

Definition request_A3 : BookingPayload :=
  {| bp_show_id := "s1"; bp_seats := ["A3"]; bp_amount := 250%float |}.

Definition request_A2A3 : BookingPayload :=
  {| bp_show_id := "s1"; bp_seats := ["A2"; "A3"]; bp_amount := 500%float |}.

Definition request_no_seats : BookingPayload :=
  {| bp_show_id := "s1"; bp_seats := []; bp_amount := 0%float |}.

Definition odeon : TheatrePayload :=
  {| tp_name := "Odeon"; tp_city := "Pune"; tp_address := None |}.

Definition matinee : ShowPayload :=
  {| sp_theatre_id := "0"; sp_movie_id := 603; sp_show_time := 1767268800;
     sp_price := 250%float; sp_seats_total := 80 |}.

Definition ann_first : AuthPayload :=
  {| ap_email := "ann@example.org"; ap_password := "correct horse"; ap_name := None |}.

Definition ann_again : AuthPayload :=
  {| ap_email := "ann@example.org"; ap_password := "battery staple";
     ap_name := Some "Ann" |}.

(** What registering [ann_first] on the empty store at time 0 leaves and
    returns, under the stand-in libraries. *)
Definition ann_store : Store :=
  mkStore
    [(0%N, User.mk "ann" "ann@example.org" "$2b$12$NaCl$correct horse" "user" true)]
    [] [] [] 1%N.

Definition ann_token : TokenResponse :=
  {| access_token :=
       @create_access_token Ref.jwt Ref.process 0
         {[ "sub" := JStr "0"; "email" := JStr "ann@example.org";
            "role" := JStr "user" ]} None;
     token_type := "bearer" |}.

Definition request_A3A4 : BookingPayload :=
  {| bp_show_id := "s1"; bp_seats := ["A3"; "A4"]; bp_amount := 500%float |}.

Definition request_other_show : BookingPayload :=
  {| bp_show_id := "s2"; bp_seats := ["A1"; "A3"]; bp_amount := 500%float |}.

Definition request_A1_twice : BookingPayload :=
  {| bp_show_id := "s1"; bp_seats := ["A1"; "A1"]; bp_amount := 500%float |}.

Definition caller_admin : gmap string JVal :=
  {[ "sub" := JStr "1"; "email" := JStr "root@example.org"; "role" := JStr "admin" ]}.

Definition forged_admin_claims : gmap string JVal :=
  {[ "sub" := JStr "nobody"; "role" := JStr "admin"; "exp" := JInt 100 ]}.

Definition ann_claims : gmap string JVal :=
  {[ "sub" := JStr "7"; "email" := JStr "ann@example.org"; "role" := JStr "user" ]}.

Definition salt22 : string := "abcdefghijklmnopqrstuv".

Definition ann_login : AuthPayload :=
  {| ap_email := "ann@example.org"; ap_password := "correct horse";
     ap_name := Some "ignored" |}.

(** The store after registering [ann_first] under [salt22]. *)
Definition ann_store22 : Store :=
  mkStore
    [(0%N, User.mk "ann" "ann@example.org"
             "$2b$12$abcdefghijklmnopqrstuv$correct horse" "user" true)]
    [] [] [] 1%N.

(** A store whose only user is an administrator. *)
Definition root_store : Store :=
  mkStore
    [(0%N, User.mk "root" "root@example.org"
             "$2b$12$abcdefghijklmnopqrstuv$swordfish" "admin" true)]
    [] [] [] 1%N.

Definition root_login : AuthPayload :=
  {| ap_email := "root@example.org"; ap_password := "swordfish"; ap_name := None |}.

(** What [root_login] returns at time 0 under the stand-in libraries. *)
Definition root_token : TokenResponse :=
  {| access_token :=
       @create_access_token Ref.jwt Ref.process 0
         {[ "sub" := JStr "0"; "email" := JStr "root@example.org";
            "role" := JStr "admin" ]} None;
     token_type := "bearer" |}.

Definition overbooked : ShowPayload :=
  {| sp_theatre_id := "no such theatre"; sp_movie_id := 603;
     sp_show_time := 1767268800; sp_price := 250%float; sp_seats_total := 301 |}.

Definition unlisted : ShowPayload :=
  {| sp_theatre_id := "no such theatre"; sp_movie_id := 0;
     sp_show_time := 1767268800; sp_price := 0%float; sp_seats_total := 1 |}.

(** * Theorems *)

(** ** The Python string operations on examples *)

Example split_bearer : Py.split "Bearer  abc.def " = ["Bearer"; "abc.def"].
Proof. reflexivity. Qed.

Example split_blank : Py.split "  " = [].
Proof. reflexivity. Qed.

Example split_on_at : Py.split_on "@" "ann@example.org" = ["ann"; "example.org"].
Proof. reflexivity. Qed.

Example split_on_two : Py.split_on "@" "a@b@c" = ["a"; "b"; "c"].
Proof. reflexivity. Qed.

Example lower_scheme : Py.lower "BeArEr" = "bearer".
Proof. reflexivity. Qed.

Example contains_mid : Py.contains "A2" "seat A2 taken" = true.
Proof. reflexivity. Qed.

(** ** Lookups in a collection *)

Lemma find_one_None {D : Type} (flt : ObjectId * D -> bool) (c : list (ObjectId * D)) :
  find_one flt c = None <-> forall d, d ∈ c -> flt d = false.
Proof.
  unfold find_one. induction c as [|x c IH]; simpl.
  - split; [intros _ d Hd; inversion Hd | done].
  - destruct (flt x) eqn:Hx.
    + split; [done | intros Hall].
      specialize (Hall x (list_elem_of_here _ _)). congruence.
    + rewrite IH. split.
      * intros Hall d Hd. apply elem_of_cons in Hd as [-> | Hd]; auto.
      * intros Hall d Hd. apply Hall. by apply list_elem_of_further.
Qed.

Lemma find_one_Some {D : Type} (flt : ObjectId * D -> bool) (c : list (ObjectId * D)) :
  is_Some (find_one flt c) <-> exists d, d ∈ c /\ flt d = true.
Proof.
  destruct (find_one flt c) as [d|] eqn:Hf.
  - split; [intros _ | by eauto].
    apply List.find_some in Hf as [Hin Hd].
    exists d. by rewrite list_elem_of_In.
  - split; [by intros [? ?] |].
    intros (d & Hin & Hd).
    rewrite find_one_None in Hf. rewrite (Hf d Hin) in Hd. done.
Qed.

Lemma booking_filter_true show_id seats d :
  booking_filter show_id seats d = true <->
  Booking.show_id d.2 = show_id /\ exists s, s ∈ Booking.seats d.2 /\ s ∈ seats.
Proof.
  unfold booking_filter.
  rewrite andb_true_iff, bool_decide_eq_true, existsb_exists.
  split; intros [Hs (s & Hin & Hreq)]; split; try done; exists s.
  - apply list_elem_of_In in Hin. by apply bool_decide_eq_true in Hreq.
  - rewrite <- list_elem_of_In. by rewrite bool_decide_eq_true.
Qed.

Lemma find_one_booking_taken db show_id seats :
  is_Some (find_one (booking_filter show_id seats) (bookings_of db))
  <-> seat_taken db show_id seats.
Proof.
  rewrite find_one_Some. unfold seat_taken. split.
  - intros (d & Hin & Hd). apply booking_filter_true in Hd as (Hs & s & H1 & H2).
    by exists d, s.
  - intros (d & s & Hin & Hs & H1 & H2). exists d. split; [done |].
    apply booking_filter_true. eauto.
Qed.

(** ** [create_booking], case by case *)

Lemma create_booking_unconfigured payload user :
  create_booking payload user None = (inl (Unhandled Py.TypeError), None).
Proof. reflexivity. Qed.

Lemma create_booking_conflict payload user st :
  is_Some (find_one (booking_filter (bp_show_id payload) (bp_seats payload))
                    (coll_booking st)) ->
  create_booking payload user (Some st) = (inl SeatConflict, Some st).
Proof.
  intros [d Hd]. unfold create_booking, mbind, handler_bind. simpl.
  by rewrite Hd.
Qed.

Lemma create_booking_no_subject payload user st :
  find_one (booking_filter (bp_show_id payload) (bp_seats payload))
           (coll_booking st) = None ->
  user !! "sub" = None ->
  create_booking payload user (Some st)
  = (inl (Unhandled (Py.KeyError "sub")), Some st).
Proof.
  intros Hf Hu. unfold create_booking, mbind, handler_bind, claims_getitem. simpl.
  by rewrite Hf, Hu.
Qed.

Lemma create_booking_bad_subject payload user st n :
  find_one (booking_filter (bp_show_id payload) (bp_seats payload))
           (coll_booking st) = None ->
  user !! "sub" = Some (JInt n) ->
  create_booking payload user (Some st)
  = (inl (Unhandled Py.ValidationError), Some st).
Proof.
  intros Hf Hu. unfold create_booking, mbind, handler_bind, claims_getitem. simpl.
  by rewrite Hf, Hu.
Qed.

Lemma create_booking_inserts payload user st uid :
  find_one (booking_filter (bp_show_id payload) (bp_seats payload))
           (coll_booking st) = None ->
  user !! "sub" = Some (JStr uid) ->
  create_booking payload user (Some st)
  = (inr {| br_id := pretty (next_oid st); br_status := "pending_payment" |},
     Some (mkStore (coll_user st) (coll_theatre st) (coll_show st)
             (coll_booking st
              ++ [(next_oid st,
                   Booking.mk uid (bp_show_id payload) (bp_seats payload)
                              (bp_amount payload) "pending" None)])
             (N.succ (next_oid st)))).
Proof.
  intros Hf Hu. unfold create_booking, mbind, handler_bind, claims_getitem. simpl.
  by rewrite Hf, Hu.
Qed.

(** Whatever happens, the call either leaves [db] as it was or appends one
    booking carrying the requested show and seats, and the latter only when no
    booking of the show holds a requested seat. *)
Lemma create_booking_cases payload user db :
  (exists f, create_booking payload user db = (inl f, db))
  \/ (exists st r b,
        db = Some st
        /\ create_booking payload user db = (inr r, Some
             (mkStore (coll_user st) (coll_theatre st) (coll_show st)
                      (coll_booking st ++ [(next_oid st, b)]) (N.succ (next_oid st))))
        /\ Booking.show_id b = bp_show_id payload
        /\ Booking.seats b = bp_seats payload
        /\ ~ seat_taken db (bp_show_id payload) (bp_seats payload)).
Proof.
  destruct db as [st|]; [| left; eexists; apply create_booking_unconfigured].
  destruct (find_one (booking_filter (bp_show_id payload) (bp_seats payload))
                     (coll_booking st)) as [d|] eqn:Hf.
  { left. eexists. apply create_booking_conflict. by rewrite Hf. }
  destruct (user !! "sub") as [[uid|n]|] eqn:Hu.
  - right. eexists st, _, _. split; [done |]. split.
    + by apply create_booking_inserts.
    + simpl. repeat split.
      rewrite <- find_one_booking_taken. simpl. rewrite Hf. by intros [? ?].
  - left. eexists. by eapply create_booking_bad_subject.
  - left. eexists. by apply create_booking_no_subject.
Qed.

(** ** The seats held for a show *)

Lemma seats_held_app cancelled show_id bs bs' :
  seats_held cancelled show_id (bs ++ bs')
  = seats_held cancelled show_id bs ++ seats_held cancelled show_id bs'.
Proof.
  unfold seats_held. by rewrite List.filter_app, map_app, concat_app.
Qed.

Lemma seats_held_elem cancelled show_id bs s :
  s ∈ seats_held cancelled show_id bs ->
  exists d, d ∈ bs /\ Booking.show_id d.2 = show_id /\ s ∈ Booking.seats d.2.
Proof.
  unfold seats_held. induction bs as [|d bs IH]; simpl.
  - intros Hs. inversion Hs.
  - destruct (bool_decide (Booking.show_id d.2 = show_id)) eqn:Hshow; simpl.
    + apply bool_decide_eq_true in Hshow.
      destruct (cancelled d.2); simpl.
      * intros Hs. destruct (IH Hs) as (d' & Hin & ?).
        exists d'. split; [by apply list_elem_of_further | done].
      * intros Hs. apply elem_of_app in Hs as [Hs | Hs].
        -- exists d. split; [apply list_elem_of_here | done].
        -- destruct (IH Hs) as (d' & Hin & ?).
           exists d'. split; [by apply list_elem_of_further | done].
    + intros Hs. destruct (IH Hs) as (d' & Hin & ?).
      exists d'. split; [by apply list_elem_of_further | done].
Qed.

Lemma seats_held_one cancelled show_id oid b :
  seats_held cancelled show_id [(oid, b)]
  = if bool_decide (Booking.show_id b = show_id) && negb (cancelled b)
    then Booking.seats b else [].
Proof.
  unfold seats_held. simpl.
  destruct (bool_decide (Booking.show_id b = show_id) && negb (cancelled b));
    simpl; [apply app_nil_r | done].
Qed.

Lemma store_A1A2_no_double_booking :
  no_double_booking is_cancelled (Some store_A1A2).
Proof.
  intros show_id. simpl. rewrite seats_held_one. simpl.
  destruct (bool_decide ("s1" = show_id)); simpl; [| constructor].
  apply (bool_decide_unpack _). by vm_compute.
Qed.

(** C1. No seat is double-booked after a call of [create_booking] with
    pairwise distinct seat labels, if none was before it: for every show the
    seats of its bookings that are not cancelled, taken together, have no
    duplicate.  This holds whether the call returns a booking or fails, for
    every reading of what a cancelled booking is, and also for an empty seat
    list. *)
Theorem create_booking_keeps_no_double_booking
    (cancelled : Booking.t -> bool) (payload : BookingPayload)
    (user : gmap string JVal) (db : option Store) :
  NoDup (bp_seats payload) ->
  no_double_booking cancelled db ->
  no_double_booking cancelled (create_booking payload user db).2.
Proof.
  intros Hdistinct Hinv.
  destruct (create_booking_cases payload user db)
    as [[f ->] | (st & r & b & -> & -> & Hshow & Hseats & Hfree)]; [done |].
  intros show_id. simpl.
  rewrite seats_held_app, seats_held_one.
  destruct (bool_decide (Booking.show_id b = show_id) && negb (cancelled b)) eqn:Hnew.
  - apply andb_true_iff in Hnew as [Hsid _].
    apply bool_decide_eq_true in Hsid.
    apply NoDup_app. split; [apply (Hinv show_id) |]. split.
    + intros s Hheld Hreq.
      apply seats_held_elem in Hheld as (d & Hin & Hd & Hs).
      apply Hfree. exists d, s. rewrite <- Hseats. repeat split; try done.
      congruence.
    + by rewrite Hseats.
  - rewrite app_nil_r. apply (Hinv show_id).
Qed.

Lemma create_booking_keeps_no_double_booking_witness :
  NoDup ["A3"]
  /\ no_double_booking is_cancelled (Some store_A1A2)
  /\ no_double_booking is_cancelled
       (create_booking request_A3 caller_u2 (Some store_A1A2)).2.
Proof.
  assert (Hd : NoDup ["A3"]) by (apply (bool_decide_unpack _); by vm_compute).
  split; [exact Hd |]. split; [exact store_A1A2_no_double_booking |].
  exact (create_booking_keeps_no_double_booking is_cancelled request_A3
           caller_u2 (Some store_A1A2) Hd store_A1A2_no_double_booking).
Defined.

(** ** Seat conflicts *)

Lemma create_booking_failure_keeps_db payload user db f :
  (create_booking payload user db).1 = inl f ->
  (create_booking payload user db).2 = db.
Proof.
  destruct (create_booking_cases payload user db)
    as [[f' ->] | (st & r & b & -> & -> & _)]; [done | discriminate].
Qed.

(** C2, as the code has it.  [create_booking] fails with [SeatConflict] if
    and only if some booking of the requested show, whatever its payment
    status, holds one of the requested seats; when the call fails, for this or
    any other reason, the store is left as it was; and whatever the request,
    the caller and the store are, an HTTP failure of the call has status 400
    and the one fixed detail "Some seats already booked": the detail is not
    made from the seats. *)
Theorem create_booking_SeatConflict_iff
    (payload : BookingPayload) (user : gmap string JVal) (db : option Store) :
  ((create_booking payload user db).1 = inl SeatConflict
   <-> seat_taken db (bp_show_id payload) (bp_seats payload))
  /\ (forall f, (create_booking payload user db).1 = inl f ->
                (create_booking payload user db).2 = db)
  /\ (forall code detail,
        (create_booking payload user db).1 = inl (HTTPException code detail) ->
        code = 400 /\ detail = "Some seats already booked").
Proof.
  split; [| split; [intros f; apply create_booking_failure_keeps_db |]]; cycle 1.
  { intros code detail.
    destruct db as [st|]; [| by rewrite create_booking_unconfigured].
    destruct (find_one (booking_filter (bp_show_id payload) (bp_seats payload))
                       (coll_booking st)) as [d|] eqn:Hf.
    { rewrite create_booking_conflict by (by rewrite Hf). by intros [= <- <-]. }
    destruct (user !! "sub") as [[uid|n]|] eqn:Hu.
    - by erewrite create_booking_inserts.
    - by erewrite create_booking_bad_subject.
    - by erewrite create_booking_no_subject. }
  rewrite <- find_one_booking_taken.
  destruct db as [st|]; simpl bookings_of; cycle 1.
  { rewrite create_booking_unconfigured. simpl.
    split; [intros H; discriminate H | by intros [? ?]]. }
  destruct (find_one (booking_filter (bp_show_id payload) (bp_seats payload))
                     (coll_booking st)) as [d|] eqn:Hf.
  - rewrite create_booking_conflict by (by rewrite Hf). split; eauto.
  - split; [| by intros [? ?]].
    destruct (user !! "sub") as [[uid|n]|] eqn:Hu.
    + erewrite create_booking_inserts by done. intros H; discriminate H.
    + erewrite create_booking_bad_subject by done. intros H; discriminate H.
    + erewrite create_booking_no_subject by done. intros H; discriminate H.
Qed.

Lemma create_booking_SeatConflict_iff_witness :
  (create_booking request_A2A3 caller_u2 (Some store_A1A2)).1 = inl SeatConflict
  /\ (create_booking request_A2A3 caller_u2 (Some store_A1A2)).2 = Some store_A1A2.
Proof.
  destruct (create_booking_SeatConflict_iff request_A2A3 caller_u2 (Some store_A1A2))
    as (Hiff & Hkeep & _).
  assert (Hfail : (create_booking request_A2A3 caller_u2 (Some store_A1A2)).1
                  = inl SeatConflict).
  { apply Hiff. exists (0%N, Booking.mk "u1" "s1" ["A1"; "A2"] 500%float "pending" None), "A2".
    split; [apply list_elem_of_here |]. split; [reflexivity |].
    split; apply (bool_decide_unpack _); by vm_compute. }
  split; [exact Hfail | exact (Hkeep _ Hfail)].
Defined.

(** C2 as written fails: with A1 and A2 booked for show s1, a request for A2
    and A3 is refused, and the failure names neither of the requested seats,
    so no contested one. *)
Lemma create_booking_conflict_names_no_seat :
  create_booking request_A2A3 caller_u2 (Some store_A1A2)
  = (inl SeatConflict, Some store_A1A2)
  /\ ~ names_contested_seat SeatConflict (Some store_A1A2) "s1" ["A2"; "A3"].
Proof.
  split; [by vm_compute |].
  intros (code & detail & s & Heq & _ & Hs & Hc).
  unfold SeatConflict in Heq. injection Heq as <- <-.
  apply elem_of_cons in Hs as [-> | Hs]; [vm_compute in Hc; discriminate |].
  apply elem_of_cons in Hs as [-> | Hs]; [vm_compute in Hc; discriminate |].
  inversion Hs.
Qed.

(** ** Requests without seats *)

Lemma booking_filter_no_seats show_id d : booking_filter show_id [] d = false.
Proof.
  unfold booking_filter. apply andb_false_iff. right.
  induction (Booking.seats d.2) as [|s l IH]; [done |].
  cbn [existsb]. rewrite bool_decide_eq_false_2 by (by intros H%elem_of_nil).
  exact IH.
Qed.

(** C3, as the code has it.  A request whose seat list is empty is not
    refused: against a configured store, for a caller whose subject is a
    string, no conflict is found, a booking with no seats and payment status
    "pending" is appended to the bookings, and the call returns its id with
    status "pending_payment". *)
Theorem create_booking_empty_seats_inserts
    (payload : BookingPayload) (user : gmap string JVal) (st : Store) (uid : string) :
  bp_seats payload = [] ->
  user !! "sub" = Some (JStr uid) ->
  create_booking payload user (Some st)
  = (inr {| br_id := pretty (next_oid st); br_status := "pending_payment" |},
     Some (mkStore (coll_user st) (coll_theatre st) (coll_show st)
             (coll_booking st
              ++ [(next_oid st,
                   Booking.mk uid (bp_show_id payload) [] (bp_amount payload)
                              "pending" None)])
             (N.succ (next_oid st)))).
Proof.
  intros Hempty Hsub.
  rewrite (create_booking_inserts payload user st uid); [by rewrite Hempty | | done].
  apply find_one_None. intros d _. rewrite Hempty. apply booking_filter_no_seats.
Qed.

Lemma create_booking_empty_seats_inserts_witness :
  create_booking request_no_seats caller_u2 (Some store_A1A2)
  = (inr {| br_id := "1"; br_status := "pending_payment" |},
     Some (mkStore [] [] []
             (coll_booking store_A1A2
              ++ [(1%N, Booking.mk "u2" "s1" [] 0%float "pending" None)]) 2%N)).
Proof.
  exact (create_booking_empty_seats_inserts request_no_seats caller_u2 store_A1A2 "u2"
           eq_refl eq_refl).
Defined.

(** C3 as written fails: on the empty store a request without seats returns a
    booking id, and a record with no seats is stored. *)
Lemma create_booking_empty_seats_not_refused :
  create_booking request_no_seats caller_u2 (Some empty_store)
  = (inr {| br_id := "0"; br_status := "pending_payment" |},
     Some (mkStore [] [] []
             [(0%N, Booking.mk "u2" "s1" [] 0%float "pending" None)] 1%N)).
Proof. by vm_compute. Qed.

(** ** Strings *)

Lemma string_app_nil_r (s : string) : s +:+ "" = s.
Proof. induction s as [|c s IH]; [done |]. change (String c (s +:+ "") = String c s). by rewrite IH. Qed.

Lemma string_app_assoc (s1 s2 s3 : string) :
  (s1 +:+ s2) +:+ s3 = s1 +:+ (s2 +:+ s3).
Proof.
  induction s1 as [|c s1 IH]; [done |].
  change (String c ((s1 +:+ s2) +:+ s3) = String c (s1 +:+ (s2 +:+ s3))).
  by rewrite IH.
Qed.

Lemma string_app_eq_nil (s1 s2 : string) : s1 +:+ s2 = "" -> s1 = "" /\ s2 = "".
Proof. destruct s1; simpl; [done | discriminate]. Qed.

(** A word without blanks is read as one field. *)
Lemma split_go_compact (tok word : string) :
  (forall c, c ∈ list_ascii_of_string tok -> Py.isspace c = false) ->
  word +:+ tok <> "" ->
  Py.split_go word tok = [word +:+ tok].
Proof.
  revert word. induction tok as [|c tok IH]; intros word Hblank Hne; simpl.
  - rewrite string_app_nil_r in *. by destruct (decide (word = "")).
  - rewrite (Hblank c) by (simpl; apply list_elem_of_here).
    rewrite IH.
    + by rewrite string_app_assoc.
    + intros c' Hc'. apply Hblank. simpl. by apply list_elem_of_further.
    + rewrite string_app_assoc. simpl. exact Hne.
Qed.

Lemma split_bearer_compact (tok : string) :
  (forall c, c ∈ list_ascii_of_string tok -> Py.isspace c = false) ->
  tok <> "" ->
  Py.split ("Bearer " +:+ tok) = ["Bearer"; tok].
Proof.
  intros Hblank Hne. unfold Py.split.
  change ("Bearer " +:+ tok)
    with (String "B" (String "e" (String "a" (String "r" (String "e"
           (String "r" (String " " tok))))))).
  change (Py.split_go "" (String "B" (String "e" (String "a" (String "r"
           (String "e" (String "r" (String " " tok))))))))
    with (["Bearer"] ++ Py.split_go "" tok).
  by rewrite split_go_compact.
Qed.

(** ** [get_current_user], case by case *)

Section Guard.
Context `{J : Jwt, P : Process}.

Lemma get_current_user_absent now :
  get_current_user now None = inl MissingCredentials.
Proof. reflexivity. Qed.

Lemma get_current_user_empty now :
  get_current_user now (Some "") = inl MissingCredentials.
Proof. reflexivity. Qed.

Lemma get_current_user_present now header :
  header <> "" ->
  get_current_user now (Some header)
  = match get_current_user_try now header with
    | inr payload => inr payload
    | inl _ => inl InvalidToken
    end.
Proof. by destruct header. Qed.

Lemma get_current_user_try_fields now header scheme token :
  Py.split header = [scheme; token] ->
  get_current_user_try now header
  = if decide (Py.lower scheme ≠ "bearer")
    then inl (Py.ValueError "Invalid auth scheme")
    else jwt_decode token JWT_SECRET now.
Proof. intros Hs. unfold get_current_user_try. by rewrite Hs. Qed.

Lemma split_nonempty header scheme token :
  Py.split header = [scheme; token] -> header <> "".
Proof. by intros Hs ->. Qed.

Lemma get_current_user_bearer now tok :
  (forall c, c ∈ list_ascii_of_string tok -> Py.isspace c = false) ->
  tok <> "" ->
  get_current_user now (Some ("Bearer " +:+ tok))
  = match jwt_decode tok JWT_SECRET now with
    | inr payload => inr payload
    | inl _ => inl InvalidToken
    end.
Proof.
  intros Hblank Hne.
  rewrite get_current_user_present by done.
  by rewrite (get_current_user_try_fields now _ "Bearer" tok)
    by by apply split_bearer_compact.
Qed.

End Guard.

(** ** The stand-in token codec meets the contract *)

Lemma bits_to_pos_to_bits (p : positive) : Ref.bits_to_pos (Ref.pos_to_bits p) = Some p.
Proof. induction p as [p IH | p IH |]; simpl; [by rewrite IH .. | done]. Qed.

Lemma pos_to_bits_noblank (p : positive) (c : ascii) :
  c ∈ list_ascii_of_string (Ref.pos_to_bits p) -> Py.isspace c = false.
Proof.
  induction p as [p IH | p IH |]; simpl; intros Hc.
  - apply elem_of_cons in Hc as [-> | Hc]; [done | by apply IH].
  - apply elem_of_cons in Hc as [-> | Hc]; [done | by apply IH].
  - inversion Hc.
Qed.

Lemma ref_decode_encode payload key now :
  Ref.decode (Ref.encode payload key) key now = Ref.check_exp payload now.
Proof.
  unfold Ref.decode, Ref.encode.
  rewrite bits_to_pos_to_bits. simpl. rewrite decode_encode.
  by rewrite decide_True.
Qed.

Lemma ref_decode_other_key payload key key' now :
  key' <> key ->
  Ref.decode (Ref.encode payload key') key now = inl Py.InvalidSignatureError.
Proof.
  intros Hne. unfold Ref.decode, Ref.encode.
  rewrite bits_to_pos_to_bits. simpl. rewrite decode_encode.
  by rewrite decide_False.
Qed.

Lemma ref_jwt_contract : JwtContract Ref.jwt.
Proof.
  split; unfold jwt_encode, jwt_decode, Ref.jwt.
  - done.
  - intros payload key c Hc. unfold Ref.encode in Hc. simpl in Hc.
    apply elem_of_cons in Hc as [-> | Hc]; [done |].
    by eapply pos_to_bits_noblank.
  - intros payload key now e _ Hexp Hlt. rewrite ref_decode_encode.
    unfold Ref.check_exp. rewrite Hexp. rewrite decide_False; [done | lia].
  - intros payload key key' now e Hexp Hle.
    destruct (decide (key' = key)) as [-> | Hne].
    + rewrite ref_decode_encode. unfold Ref.check_exp. rewrite Hexp.
      rewrite decide_True by done. eauto.
    + rewrite ref_decode_other_key by done. eauto.
Qed.

(** ** Tokens *)

(** The claims main.py issues, a string subject, email and role with the
    expiry, are plain. *)
Lemma plain_identity_claims (subject email role : string) (expire : Z) :
  plain_claims
    (<["exp" := JInt expire]>
       {[ "sub" := JStr subject; "email" := JStr email; "role" := JStr role ]}).
Proof. unfold plain_claims. by simplify_map_eq. Qed.

Section Tokens.
Context `{J : Jwt, P : Process} {C : JwtContract J}.

Lemma create_access_token_default now data :
  create_access_token now data None
  = jwt_encode (<["exp" := JInt (now + 86400)]> data) JWT_SECRET.
Proof. reflexivity. Qed.

(** C4. Issue then verify is the identity on the identity claims: for every
    subject, email and role, the token issued at [now] with the default
    lifetime, presented as a Bearer credential at any time [now'] before
    its expiry [now + 86400], is accepted, and the claims returned are the
    issued ones, with the same subject, email and role (and the expiry). *)
Theorem issue_verify_round_trip (subject email role : string) (now now' : Z) :
  now' < now + 86400 ->
  let issued : gmap string JVal :=
    {[ "sub" := JStr subject; "email" := JStr email; "role" := JStr role ]} in
  exists payload,
    get_current_user now' (Some ("Bearer " +:+ create_access_token now issued None))
    = inr payload
    /\ payload = <["exp" := JInt (now + 86400)]> issued
    /\ payload !! "sub" = Some (JStr subject)
    /\ payload !! "email" = Some (JStr email)
    /\ payload !! "role" = Some (JStr role).
Proof.
  intros Hlive issued. eexists. split; [| split; [reflexivity |]].
  - rewrite create_access_token_default.
    rewrite get_current_user_bearer.
    + by rewrite (jwt_decode_encode _ _ now' (now + 86400))
        by first [apply plain_identity_claims | by rewrite ?lookup_insert_eq].
    + apply jwt_token_noblank.
    + apply jwt_token_nonempty.
  - subst issued. by simplify_map_eq.
Qed.

(** C5. A token whose expiry has passed is refused with [InvalidToken],
    whatever key signed it, so also when the signature is valid under the
    configured secret. *)
Theorem expired_token_is_refused
    (payload : gmap string JVal) (key : string) (e now : Z) :
  payload !! "exp" = Some (JInt e) ->
  e <= now ->
  get_current_user now (Some ("Bearer " +:+ jwt_encode payload key))
  = inl InvalidToken.
Proof.
  intros Hexp Hpast.
  rewrite get_current_user_bearer
    by (apply jwt_token_noblank || apply jwt_token_nonempty).
  by destruct (jwt_decode_expired payload JWT_SECRET key now e Hexp Hpast) as [exc ->].
Qed.

End Tokens.

Lemma issue_verify_round_trip_witness :
  exists payload,
    @get_current_user Ref.jwt Ref.process 10
      (Some ("Bearer "
             +:+ @create_access_token Ref.jwt Ref.process 0
                   {[ "sub" := JStr "7"; "email" := JStr "ann@example.org";
                      "role" := JStr "user" ]} None))
    = inr payload
    /\ payload = <["exp" := JInt (0 + 86400)]>
                   {[ "sub" := JStr "7"; "email" := JStr "ann@example.org";
                      "role" := JStr "user" ]}
    /\ payload !! "sub" = Some (JStr "7")
    /\ payload !! "email" = Some (JStr "ann@example.org")
    /\ payload !! "role" = Some (JStr "user").
Proof.
  apply (@issue_verify_round_trip Ref.jwt Ref.process ref_jwt_contract
           "7" "ann@example.org" "user" 0 10).
  lia.
Defined.

Lemma expired_token_is_refused_witness :
  @get_current_user Ref.jwt Ref.process 200
    (Some ("Bearer "
           +:+ Ref.encode {[ "sub" := JStr "7"; "exp" := JInt 100 ]} "devsecret"))
  = inl InvalidToken.
Proof.
  apply (@expired_token_is_refused Ref.jwt Ref.process ref_jwt_contract
           {[ "sub" := JStr "7"; "exp" := JInt 100 ]} "devsecret" 100 200).
  - by vm_compute.
  - lia.
Defined.

(** ** Failures of the guard *)

Section GuardFailures.
Context `{J : Jwt, P : Process}.

(** C6, as the code has it.  [get_current_user] fails with
    [MissingCredentials] when the header is absent or empty.  When the
    header is present but does not consist of exactly two blank-separated
    fields, or its first field is not "bearer" in some letter case, it
    fails with [InvalidToken], the very failure a well-formed Bearer header
    with a token that the token library refuses yields; a header whose
    scheme is "bearer" in any letter case with an accepted token yields
    the token's claims. *)
Theorem get_current_user_failures (now : Z) :
  (get_current_user now None = inl MissingCredentials
   /\ get_current_user now (Some "") = inl MissingCredentials)
  /\ (forall header,
        header <> "" ->
        (forall scheme token,
           Py.split header = [scheme; token] -> Py.lower scheme <> "bearer") ->
        get_current_user now (Some header) = inl InvalidToken)
  /\ (forall header scheme token exc,
        Py.split header = [scheme; token] ->
        Py.lower scheme = "bearer" ->
        jwt_decode token JWT_SECRET now = inl exc ->
        get_current_user now (Some header) = inl InvalidToken)
  /\ (forall header scheme token payload,
        Py.split header = [scheme; token] ->
        Py.lower scheme = "bearer" ->
        jwt_decode token JWT_SECRET now = inr payload ->
        get_current_user now (Some header) = inr payload).
Proof.
  split; [done |]. split; [| split].
  - intros header Hne Hmal. rewrite get_current_user_present by done.
    unfold get_current_user_try.
    destruct (Py.split header) as [|scheme [|token [|extra fields]]] eqn:Hs;
      try done.
    by rewrite decide_True by by apply (Hmal scheme token).
  - intros header scheme token exc Hs Hscheme Hdec.
    rewrite get_current_user_present by by eapply split_nonempty.
    rewrite (get_current_user_try_fields now header scheme token Hs).
    rewrite decide_False by (by intros ?). by rewrite Hdec.
  - intros header scheme token payload Hs Hscheme Hdec.
    rewrite get_current_user_present by by eapply split_nonempty.
    rewrite (get_current_user_try_fields now header scheme token Hs).
    rewrite decide_False by (by intros ?). by rewrite Hdec.
Qed.

End GuardFailures.

Lemma get_current_user_failures_witness :
  @get_current_user Ref.jwt Ref.process 0 (Some "Basic abc") = inl InvalidToken.
Proof.
  apply (proj1 (proj2 (@get_current_user_failures Ref.jwt Ref.process 0))).
  - discriminate.
  - intros scheme token Hs. vm_compute in Hs. injection Hs as <- <-.
    vm_compute. discriminate.
Defined.

(** C6 as written fails: a header with another scheme, and a header with no
    token after the scheme, fail with exactly the failure that a Bearer header
    with a forged token fails with; there is no distinct failure for malformed
    credentials. *)
Lemma malformed_credentials_not_distinct :
  @get_current_user Ref.jwt Ref.process 0 (Some "Basic abc") = inl InvalidToken
  /\ @get_current_user Ref.jwt Ref.process 0 (Some "Bearer") = inl InvalidToken
  /\ @get_current_user Ref.jwt Ref.process 0 (Some "Bearer forged") = inl InvalidToken.
Proof. repeat split; by vm_compute. Qed.

(** The scheme is compared without regard to letter case. *)
Example lower_case_scheme_accepted :
  @get_current_user Ref.jwt Ref.process 0
    (Some ("bearer " +:+ Ref.encode {[ "sub" := JStr "7"; "exp" := JInt 100 ]} "devsecret"))
  = inr {[ "sub" := JStr "7"; "exp" := JInt 100 ]}.
Proof. by vm_compute. Qed.

(** ** Admin-only handlers *)

Lemma not_admin_true (user : gmap string JVal) :
  user !! "role" ≠ Some (JStr "admin") -> not_admin user = true.
Proof. intros Hrole. unfold not_admin. by apply bool_decide_eq_true. Qed.

(** C7. A caller whose role is not "admin" (or who has no role) is refused by
    [create_theatre] and by [create_show] with [Forbidden], status 403, and
    the store is left as it was. *)
Theorem non_admin_is_forbidden
    (user : gmap string JVal) (theatre : TheatrePayload) (show : ShowPayload)
    (db : option Store) :
  user !! "role" ≠ Some (JStr "admin") ->
  create_theatre theatre user db = (inl Forbidden, db)
  /\ create_show show user db = (inl Forbidden, db)
  /\ status_of Forbidden = 403.
Proof.
  intros Hrole%not_admin_true.
  unfold create_theatre, create_show. by rewrite Hrole.
Qed.

Lemma non_admin_is_forbidden_witness :
  create_theatre odeon caller_u2 (Some store_A1A2) = (inl Forbidden, Some store_A1A2)
  /\ create_show matinee caller_u2 (Some store_A1A2) = (inl Forbidden, Some store_A1A2)
  /\ status_of Forbidden = 403.
Proof.
  apply (non_admin_is_forbidden caller_u2 odeon matinee (Some store_A1A2)).
  vm_compute. discriminate.
Defined.

(** An admin gets through: the gate is the role check alone. *)
Example admin_creates_theatre :
  create_theatre odeon {[ "sub" := JStr "1"; "role" := JStr "admin" ]} (Some empty_store)
  = (inr "0", Some (mkStore [] [(0%N, Theatre.mk "Odeon" "Pune" None)] [] [] 1%N)).
Proof. by vm_compute. Qed.

(** ** Password verification *)

(** C8, at the failing input.  On the empty digest [verify_password] does not
    return [False]: no scheme identifies the digest, and the [UnknownHashError]
    of the password context escapes, for every password. *)
Theorem verify_password_empty_digest_raises `{L : Passlib} (plain : string) :
  verify_password plain "" = inl Py.UnknownHashError.
Proof. reflexivity. Qed.

Lemma verify_password_unidentified `{L : Passlib} (plain hashed : string) :
  bcrypt_identify hashed = false ->
  verify_password plain hashed = inl Py.UnknownHashError.
Proof. intros Hid. unfold verify_password, pwd_context_verify. by rewrite Hid. Qed.

(** [verify_password] has no handler of its own: what the bcrypt handler
    raises on a digest it identified escapes as well. *)
Lemma verify_password_identified `{L : Passlib} (plain hashed : string) :
  bcrypt_identify hashed = true ->
  verify_password plain hashed = bcrypt_verify plain hashed.
Proof. intros Hid. unfold verify_password, pwd_context_verify. by rewrite Hid. Qed.

(** In [login] the escaping exception is a status 500, not the 400 of invalid
    credentials. *)
Lemma login_empty_digest_escapes `{J : Jwt, L : Passlib, P : Process}
    (now : Z) (payload : AuthPayload) (st : Store) (doc : ObjectId * User.t) :
  find_one (email_filter (ap_email payload)) (coll_user st) = Some doc ->
  User.password_hash doc.2 = "" ->
  login now payload (Some st) = (inl (Unhandled Py.UnknownHashError), Some st).
Proof.
  intros Hdoc Hhash. unfold login, mbind, handler_bind. simpl.
  by rewrite Hdoc, Hhash.
Qed.

(** ** Registration *)

Lemma split_on_cons (sep : ascii) (s : string) :
  exists w ws, Py.split_on sep s = w :: ws.
Proof.
  induction s as [|c s (w & ws & IH)]; simpl; [by eauto |].
  destruct (decide (c = sep)); [by eauto |]. rewrite IH. eauto.
Qed.

Lemma contains_at_cons (c : ascii) (l : string) :
  Py.contains "@" (String c l) = false -> c <> "@"%char /\ Py.contains "@" l = false.
Proof.
  simpl. intros [Hpre Hrest]%orb_false_iff.
  split; [| done]. intros ->. simpl in Hpre. by destruct l.
Qed.

(** The first field of [email.split("@")] is the local part. *)
Lemma split_on_local_part (l email : string) :
  is_local_part l email ->
  exists ws, Py.split_on "@" email = l :: ws.
Proof.
  intros [[r ->] Hl]. revert Hl. induction l as [|c l IH]; intros Hl.
  - change ("" +:+ "@" +:+ r) with (String "@" r). simpl. eauto.
  - apply contains_at_cons in Hl as [Hc Hl].
    destruct (IH Hl) as [ws Hws].
    change (String c l +:+ "@" +:+ r) with (String c (l +:+ "@" +:+ r)).
    simpl. rewrite decide_False by done. rewrite Hws. eauto.
Qed.

Lemma split_on_no_sep (email : string) :
  Py.contains "@" email = false -> Py.split_on "@" email = [email].
Proof.
  induction email as [|c s IH]; [done |].
  intros [Hc Hs]%contains_at_cons. simpl.
  rewrite decide_False by done. by rewrite IH.
Qed.

Section Registration.
Context `{J : Jwt, L : Passlib, P : Process}.

Lemma register_name_returns payload db :
  exists name,
    register_name payload db = (inr name, db)
    /\ (ap_name payload = None ->
        exists ws, Py.split_on "@" (ap_email payload) = name :: ws).
Proof.
  unfold register_name.
  destruct (split_on_cons "@" (ap_email payload)) as (w & ws & Hsplit).
  destruct (ap_name payload) as [[|c n]|]; rewrite ?Hsplit.
  - exists w. by split.
  - eexists. by split.
  - exists w. split; [done | eauto].
Qed.

Lemma register_unconfigured now salt payload :
  register now salt payload None = (inl NotConfigured, None).
Proof. reflexivity. Qed.

Lemma register_duplicate now salt payload st :
  is_Some (find_one (email_filter (ap_email payload)) (coll_user st)) ->
  register now salt payload (Some st) = (inl DuplicateEmail, Some st).
Proof.
  intros [d Hd]. unfold register, mbind, handler_bind. simpl. by rewrite Hd.
Qed.

(** A registration that returns a token found no user with the email and
    appended one user record to the store. *)
Lemma register_returns now salt payload db r db' :
  register now salt payload db = (inr r, db') ->
  exists st name hash,
    db = Some st
    /\ find_one (email_filter (ap_email payload)) (coll_user st) = None
    /\ register_name payload db = (inr name, db)
    /\ get_password_hash salt (ap_password payload) = inr hash
    /\ db' = Some (mkStore
               (coll_user st
                ++ [(next_oid st,
                     User.mk name (ap_email payload) hash "user" true)])
               (coll_theatre st) (coll_show st) (coll_booking st)
               (N.succ (next_oid st))).
Proof.
  destruct db as [st|]; [| by rewrite register_unconfigured].
  destruct (find_one (email_filter (ap_email payload)) (coll_user st)) as [d|] eqn:Hf.
  { rewrite register_duplicate by (by rewrite Hf). discriminate. }
  destruct (register_name_returns payload (Some st)) as (name & Hname & _).
  unfold register, mbind, handler_bind. simpl. rewrite Hf, Hname. simpl.
  destruct (get_password_hash salt (ap_password payload)) as [exc | hash] eqn:Hhash;
    [discriminate |].
  intros [= <- <-]. by exists st, name, hash.
Qed.

(** C9. After a registration with an email has returned a token, a second
    registration with the same email fails with [DuplicateEmail] (status
    400), whatever the two passwords and names are, and leaves the store as
    it was: it holds exactly one user record with that email. *)
Theorem register_twice_DuplicateEmail
    (now1 now2 : Z) (salt1 salt2 e p1 p2 : string) (n1 n2 : option string)
    (db db' : option Store) (r : TokenResponse) :
  register now1 salt1 {| ap_email := e; ap_password := p1; ap_name := n1 |} db
  = (inr r, db') ->
  register now2 salt2 {| ap_email := e; ap_password := p2; ap_name := n2 |} db'
  = (inl DuplicateEmail, db')
  /\ status_of DuplicateEmail = 400
  /\ length (List.filter (email_filter e) (users_of db')) = 1%nat.
Proof.
  intros (st & name & hash & -> & Hfree & _ & _ & ->)%register_returns. simpl in *.
  split; [| split; [done |]].
  - apply register_duplicate. simpl.
    apply find_one_Some. eexists. split.
    + apply elem_of_app. right. apply list_elem_of_here.
    + unfold email_filter. simpl. by apply bool_decide_eq_true.
  - rewrite List.filter_app, length_app. simpl.
    unfold email_filter at 2. simpl. rewrite bool_decide_eq_true_2 by done.
    simpl. rewrite find_one_None in Hfree.
    replace (List.filter (email_filter e) (coll_user st)) with (@nil (ObjectId * User.t));
      [done |].
    symmetry. induction (coll_user st) as [|d c IH]; [done |]. simpl.
    rewrite (Hfree d) by apply list_elem_of_here.
    apply IH. intros d' Hd'. apply Hfree. by apply list_elem_of_further.
Qed.

(** C10. When a registration without a name creates a user, the user's name
    is the first field of the email split at "@": the part of the email
    before its first "@" (the whole email, should it hold none). *)
Theorem register_default_name
    (now : Z) (salt : string) (payload : AuthPayload)
    (db db' : option Store) (r : TokenResponse) :
  ap_name payload = None ->
  register now salt payload db = (inr r, db') ->
  exists st u,
    db = Some st
    /\ users_of db' = coll_user st ++ [(next_oid st, u)]
    /\ User.email u = ap_email payload
    /\ (forall l, is_local_part l (ap_email payload) -> User.name u = l)
    /\ (Py.contains "@" (ap_email payload) = false -> User.name u = ap_email payload).
Proof.
  intros Hanon (st & name & hash & -> & _ & Hname & _ & ->)%register_returns.
  destruct (register_name_returns payload (Some st)) as (name' & Hname' & Hsplit).
  rewrite Hname in Hname'. injection Hname' as <-.
  destruct (Hsplit Hanon) as [ws Hws].
  eexists st, _. split; [done |]. split; [done |]. split; [done |]. simpl. split.
  - intros l [ws' Hl]%split_on_local_part. congruence.
  - intros Hno%split_on_no_sep. congruence.
Qed.

End Registration.

Example ann_first_registers :
  @register Ref.jwt Ref.passlib Ref.process 0 "NaCl" ann_first (Some empty_store)
  = (inr ann_token, Some ann_store).
Proof. by vm_compute. Qed.

Lemma register_twice_DuplicateEmail_witness :
  @register Ref.jwt Ref.passlib Ref.process 60 "KCl" ann_again (Some ann_store)
  = (inl DuplicateEmail, Some ann_store)
  /\ status_of DuplicateEmail = 400
  /\ length (List.filter (email_filter "ann@example.org") (users_of (Some ann_store)))
     = 1%nat.
Proof.
  apply (@register_twice_DuplicateEmail Ref.jwt Ref.passlib Ref.process
           0 60 "NaCl" "KCl" "ann@example.org" "correct horse" "battery staple"
           None (Some "Ann") (Some empty_store) (Some ann_store) ann_token).
  by vm_compute.
Defined.

Lemma register_default_name_witness :
  exists st u,
    Some empty_store = Some st
    /\ users_of (Some ann_store) = coll_user st ++ [(next_oid st, u)]
    /\ User.email u = "ann@example.org"
    /\ (forall l, is_local_part l "ann@example.org" -> User.name u = l)
    /\ (Py.contains "@" "ann@example.org" = false -> User.name u = "ann@example.org").
Proof.
  apply (@register_default_name Ref.jwt Ref.passlib Ref.process
           0 "NaCl" ann_first (Some empty_store) (Some ann_store) ann_token).
  - reflexivity.
  - by vm_compute.
Defined.

Example ann_is_local_part : is_local_part "ann" "ann@example.org".
Proof. split; [by exists "example.org" | done]. Qed.

Example verify_after_hash :
  @get_password_hash Ref.passlib "0123456789012345678901" "correct horse"
  = inr "$2b$12$0123456789012345678901$correct horse"
  /\ @verify_password Ref.passlib "correct horse"
       "$2b$12$0123456789012345678901$correct horse"
     = inr true.
Proof. by vm_compute. Qed.

(** * Further properties of the handlers *)

(** ** More on [create_booking] *)

Lemma create_booking_returns payload user db r db' :
  create_booking payload user db = (inr r, db') ->
  exists st uid,
    db = Some st
    /\ user !! "sub" = Some (JStr uid)
    /\ find_one (booking_filter (bp_show_id payload) (bp_seats payload))
                (coll_booking st) = None
    /\ r = {| br_id := pretty (next_oid st); br_status := "pending_payment" |}
    /\ db' = Some (mkStore (coll_user st) (coll_theatre st) (coll_show st)
               (coll_booking st
                ++ [(next_oid st,
                     Booking.mk uid (bp_show_id payload) (bp_seats payload)
                                (bp_amount payload) "pending" None)])
               (N.succ (next_oid st))).
Proof.
  destruct db as [st|]; [| by rewrite create_booking_unconfigured].
  destruct (find_one (booking_filter (bp_show_id payload) (bp_seats payload))
                     (coll_booking st)) as [d|] eqn:Hf.
  { rewrite create_booking_conflict by (by rewrite Hf). discriminate. }
  destruct (user !! "sub") as [[uid|n]|] eqn:Hu.
  - rewrite (create_booking_inserts payload user st uid) by done.
    intros [= <- <-]. by exists st, uid.
  - by erewrite create_booking_bad_subject.
  - by rewrite create_booking_no_subject.
Qed.

Lemma create_booking_conflict_taken payload user db :
  (create_booking payload user db).1 = inl SeatConflict
  <-> seat_taken db (bp_show_id payload) (bp_seats payload).
Proof.
  rewrite <- find_one_booking_taken.
  destruct db as [st|]; simpl bookings_of; cycle 1.
  { rewrite create_booking_unconfigured. simpl.
    split; [intros H; discriminate H | by intros [? ?]]. }
  destruct (find_one (booking_filter (bp_show_id payload) (bp_seats payload))
                     (coll_booking st)) as [d|] eqn:Hf.
  - rewrite create_booking_conflict by (by rewrite Hf). split; eauto.
  - split; [| by intros [? ?]].
    destruct (user !! "sub") as [[uid|n]|] eqn:Hu.
    + erewrite create_booking_inserts by done. intros H; discriminate H.
    + erewrite create_booking_bad_subject by done. intros H; discriminate H.
    + erewrite create_booking_no_subject by done. intros H; discriminate H.
Qed.

(** X1. [create_booking] returns a booking exactly when the database is
    configured, the caller's subject is a string and no booking of the show
    holds a requested seat.  Nothing else is looked at: not the amount, not
    whether the show exists, not whether the seat labels belong to it. *)
Theorem create_booking_returns_iff
    (payload : BookingPayload) (user : gmap string JVal) (db : option Store) :
  (exists r, (create_booking payload user db).1 = inr r)
  <-> (exists st uid,
         db = Some st /\ user !! "sub" = Some (JStr uid)
         /\ ~ seat_taken db (bp_show_id payload) (bp_seats payload)).
Proof.
  split.
  - intros [r Hr].
    destruct (create_booking payload user db) as [res db'] eqn:Hcall.
    simpl in Hr. subst res.
    apply create_booking_returns in Hcall as (st & uid & -> & Hu & Hf & _).
    exists st, uid. repeat split; try done.
    rewrite <- find_one_booking_taken. simpl. rewrite Hf. by intros [? ?].
  - intros (st & uid & -> & Hu & Hfree).
    rewrite <- find_one_booking_taken in Hfree. simpl in Hfree.
    destruct (find_one (booking_filter (bp_show_id payload) (bp_seats payload))
                       (coll_booking st)) as [d|] eqn:Hf.
    { destruct Hfree. eauto. }
    rewrite (create_booking_inserts payload user st uid) by done. eauto.
Qed.

(** X2. Once a booking is made, every later request for the same show that
    shares a seat with it is refused with [SeatConflict], whoever asks and
    whatever other seats it names, and the store stays as it is. *)
Theorem booked_seats_are_refused
    (payload payload' : BookingPayload) (user user' : gmap string JVal)
    (db db' : option Store) (r : BookingResponse) :
  create_booking payload user db = (inr r, db') ->
  bp_show_id payload' = bp_show_id payload ->
  (exists s, s ∈ bp_seats payload /\ s ∈ bp_seats payload') ->
  create_booking payload' user' db' = (inl SeatConflict, db').
Proof.
  intros (st & uid & -> & _ & _ & _ & ->)%create_booking_returns Hshow (s & Hs & Hs').
  apply create_booking_conflict. simpl.
  apply find_one_Some. eexists. split.
  - apply elem_of_app. right. apply list_elem_of_here.
  - apply booking_filter_true. simpl. eauto.
Qed.

Lemma booked_seats_are_refused_witness :
  create_booking request_A3A4 caller_admin
    (create_booking request_A3 caller_u2 (Some store_A1A2)).2
  = (inl SeatConflict, (create_booking request_A3 caller_u2 (Some store_A1A2)).2).
Proof.
  apply (booked_seats_are_refused request_A3 request_A3A4 caller_u2 caller_admin
           (Some store_A1A2) _
           {| br_id := "1"; br_status := "pending_payment" |}).
  - by vm_compute.
  - reflexivity.
  - exists "A3". split; apply (bool_decide_unpack _); by vm_compute.
Defined.

(** X3. The conflict check is per show: a booking made for one show does not
    change whether a request for another show is refused with
    [SeatConflict], even for the same seat labels. *)
Theorem other_show_unaffected
    (payload payload' : BookingPayload) (user user' : gmap string JVal)
    (db db' : option Store) (r : BookingResponse) :
  create_booking payload user db = (inr r, db') ->
  bp_show_id payload' <> bp_show_id payload ->
  ((create_booking payload' user' db').1 = inl SeatConflict
   <-> (create_booking payload' user' db).1 = inl SeatConflict).
Proof.
  intros (st & uid & -> & _ & _ & _ & ->)%create_booking_returns Hshow.
  rewrite !create_booking_conflict_taken. unfold seat_taken. simpl.
  split.
  - intros (d & s & Hd & Hsid & Hs & Hs').
    apply elem_of_app in Hd as [Hd | Hd]; [by exists d, s |].
    apply list_elem_of_singleton in Hd as ->. simpl in Hsid. congruence.
  - intros (d & s & Hd & Hrest). exists d, s. split; [| done].
    apply elem_of_app. by left.
Qed.

Lemma other_show_unaffected_witness :
  (create_booking request_other_show caller_admin
     (create_booking request_A3 caller_u2 (Some store_A1A2)).2).1 = inl SeatConflict
  <-> (create_booking request_other_show caller_admin (Some store_A1A2)).1
      = inl SeatConflict.
Proof.
  apply (other_show_unaffected request_A3 request_other_show caller_u2 caller_admin
           (Some store_A1A2) _
           {| br_id := "1"; br_status := "pending_payment" |}).
  - by vm_compute.
  - discriminate.
Defined.

(** X4. A seat label repeated within one request is not noticed: when no
    booking of the show holds a requested seat, the request is accepted, and
    the seats then held for the show contain a duplicate.  The distinctness
    of the requested labels is a duty of the caller. *)
Theorem repeated_seat_is_double_booked
    (cancelled : Booking.t -> bool) (payload : BookingPayload)
    (user : gmap string JVal) (st : Store) (uid : string) :
  user !! "sub" = Some (JStr uid) ->
  ~ seat_taken (Some st) (bp_show_id payload) (bp_seats payload) ->
  ~ NoDup (bp_seats payload) ->
  cancelled (Booking.mk uid (bp_show_id payload) (bp_seats payload)
                        (bp_amount payload) "pending" None) = false ->
  exists r db',
    create_booking payload user (Some st) = (inr r, db')
    /\ ~ no_double_booking cancelled db'.
Proof.
  intros Hu Hfree Hdup Hlive.
  rewrite <- find_one_booking_taken in Hfree. simpl in Hfree.
  destruct (find_one (booking_filter (bp_show_id payload) (bp_seats payload))
                     (coll_booking st)) as [d|] eqn:Hf.
  { destruct Hfree. eauto. }
  eexists _, _. split; [by apply create_booking_inserts |].
  intros Hinv. specialize (Hinv (bp_show_id payload)). simpl in Hinv.
  rewrite seats_held_app, seats_held_one in Hinv. simpl in Hinv.
  rewrite bool_decide_eq_true_2, Hlive in Hinv by done. simpl in Hinv.
  apply NoDup_app in Hinv as (_ & _ & Hseats). done.
Qed.

Lemma repeated_seat_is_double_booked_witness :
  exists r db',
    create_booking request_A1_twice caller_u2 (Some empty_store) = (inr r, db')
    /\ ~ no_double_booking is_cancelled db'.
Proof.
  apply (repeated_seat_is_double_booked is_cancelled request_A1_twice caller_u2
           empty_store "u2").
  - reflexivity.
  - intros (d & s & Hd & _). inversion Hd.
  - intros Hnd. apply NoDup_cons in Hnd as [Hnot _].
    apply Hnot, list_elem_of_here.
  - reflexivity.
Defined.

(** ** More on [get_current_user] *)

Lemma list_ascii_of_string_app (s1 s2 : string) :
  list_ascii_of_string (s1 +:+ s2)
  = list_ascii_of_string s1 ++ list_ascii_of_string s2.
Proof.
  induction s1 as [|c s1 IH]; [done |].
  change (String c s1 +:+ s2) with (String c (s1 +:+ s2)). simpl. by rewrite IH.
Qed.

(** Every field of [s.split()] is a non-empty run without blanks. *)
Lemma split_go_fields (s word : string) :
  (forall c, c ∈ list_ascii_of_string word -> Py.isspace c = false) ->
  Forall (fun f => f <> ""
                   /\ forall c, c ∈ list_ascii_of_string f -> Py.isspace c = false)
         (Py.split_go word s).
Proof.
  revert word. induction s as [|c s IH]; intros word Hword; simpl.
  - destruct (decide (word = "")); [constructor |].
    by repeat constructor.
  - destruct (Py.isspace c) eqn:Hc.
    + apply Forall_app. split.
      * destruct (decide (word = "")); [constructor |]. by repeat constructor.
      * apply IH. intros c' Hc'. inversion Hc'.
    + apply IH. intros c' Hc'.
      rewrite list_ascii_of_string_app in Hc'. simpl in Hc'.
      apply elem_of_app in Hc' as [Hc' | Hc']; [by apply Hword |].
      by apply list_elem_of_singleton in Hc' as ->.
Qed.

Lemma split_fields (s : string) :
  Forall (fun f => f <> ""
                   /\ forall c, c ∈ list_ascii_of_string f -> Py.isspace c = false)
         (Py.split s).
Proof. apply split_go_fields. intros c Hc. inversion Hc. Qed.

Section GuardMore.
Context `{J : Jwt, P : Process}.

Lemma get_current_user_try_returns now header payload :
  get_current_user_try now header = inr payload ->
  exists scheme token,
    Py.split header = [scheme; token]
    /\ Py.lower scheme = "bearer"
    /\ jwt_decode token JWT_SECRET now = inr payload.
Proof.
  unfold get_current_user_try.
  destruct (Py.split header) as [|scheme [|token [|extra fields]]]; try done.
  destruct (decide (Py.lower scheme ≠ "bearer")) as [|Hscheme]; [done |].
  intros Hdec. exists scheme, token. split; [done |]. split; [| done].
  by destruct (decide (Py.lower scheme = "bearer")).
Qed.

Lemma get_current_user_fails now authorization f :
  get_current_user now authorization = inl f ->
  (f = MissingCredentials \/ f = InvalidToken) /\ status_of f = 401.
Proof.
  unfold get_current_user.
  destruct authorization as [[|c header]|]; try (intros [= <-]; by eauto).
  destruct (get_current_user_try now (String c header)); [| done].
  intros [= <-]; by eauto.
Qed.

(** X5. [get_current_user] never returns claims of its own making: what it
    returns is what [jwt.decode] returned, under the configured secret, for
    the second of exactly two blank-separated fields of the header, the first
    being "bearer" in some letter case; the token handed to [jwt.decode] is
    not empty and holds no blank.  Every failure has status 401 and is one of
    the two failures of the guard. *)
Theorem get_current_user_sound (now : Z) (authorization : option string) :
  match get_current_user now authorization with
  | inr payload =>
      exists header scheme token,
        authorization = Some header
        /\ Py.split header = [scheme; token]
        /\ Py.lower scheme = "bearer"
        /\ token <> ""
        /\ (forall c, c ∈ list_ascii_of_string token -> Py.isspace c = false)
        /\ jwt_decode token JWT_SECRET now = inr payload
  | inl f => (f = MissingCredentials \/ f = InvalidToken) /\ status_of f = 401
  end.
Proof.
  destruct (get_current_user now authorization) as [f | payload] eqn:Hcall.
  { by eapply get_current_user_fails. }
  destruct authorization as [header|]; [| done].
  assert (Hne : header <> "") by (by intros ->).
  rewrite get_current_user_present in Hcall by done.
  destruct (get_current_user_try now header) as [exc | payload'] eqn:Htry; [done |].
  injection Hcall as ->.
  apply get_current_user_try_returns in Htry as (scheme & token & Hs & Hscheme & Hdec).
  exists header, scheme, token. repeat split; try done.
  - pose proof (split_fields header) as Hf. rewrite Hs in Hf.
    apply Forall_cons in Hf as [_ Hf]. apply Forall_cons in Hf as [[Hne' _] _]. done.
  - pose proof (split_fields header) as Hf. rewrite Hs in Hf.
    apply Forall_cons in Hf as [_ Hf]. apply Forall_cons in Hf as [[_ Hb] _]. done.
Qed.

End GuardMore.

(** ** More on tokens *)

Section TokensMore.
Context `{J : Jwt, P : Process} {C : JwtContract J}.

Lemma create_access_token_lifetime now data expires_delta :
  create_access_token now data expires_delta
  = jwt_encode (<["exp" := JInt (now + lifetime expires_delta)]> data) JWT_SECRET.
Proof.
  unfold create_access_token, lifetime.
  destruct expires_delta as [d|]; [| done]. by destruct (decide (d = 0)).
Qed.

Lemma get_current_user_signed now claims e :
  plain_claims claims ->
  claims !! "exp" = Some (JInt e) ->
  now < e ->
  get_current_user now (Some ("Bearer " +:+ jwt_encode claims JWT_SECRET))
  = inr claims.
Proof.
  intros Hplain Hexp Hlive.
  rewrite get_current_user_bearer
    by (apply jwt_token_noblank || apply jwt_token_nonempty).
  by rewrite (jwt_decode_encode _ _ now e).
Qed.

Lemma get_current_user_expired now claims e :
  claims !! "exp" = Some (JInt e) ->
  e <= now ->
  get_current_user now (Some ("Bearer " +:+ jwt_encode claims JWT_SECRET))
  = inl InvalidToken.
Proof.
  intros Hexp Hpast.
  rewrite get_current_user_bearer
    by (apply jwt_token_noblank || apply jwt_token_nonempty).
  by destruct (jwt_decode_expired claims JWT_SECRET JWT_SECRET now e Hexp Hpast)
    as [exc ->].
Qed.

Lemma plain_claims_insert_exp (data : gmap string JVal) (expire : Z) :
  plain_claims data -> plain_claims (<["exp" := JInt expire]> data).
Proof.
  unfold plain_claims. by rewrite !lookup_insert_ne by done.
Qed.

(** X6. A token made by [create_access_token] at [now] from plain claims (no
    "aud", "iss", "nbf", "iat" or "jti", and a subject that is a string if
    there is one) carries the expiry [now] plus its lifetime, which is the
    given [expires_delta] unless that is absent or zero, when it is 24 hours;
    an "exp" entry of the data is overwritten.  Presented as a Bearer
    credential the token yields the data with that expiry strictly before the
    expiry, and [InvalidToken] from the expiry on. *)
Theorem token_valid_for_its_lifetime
    (now now' : Z) (data : gmap string JVal) (expires_delta : option Z) :
  plain_claims data ->
  get_current_user now'
    (Some ("Bearer " +:+ create_access_token now data expires_delta))
  = if decide (now' < now + lifetime expires_delta)
    then inr (<["exp" := JInt (now + lifetime expires_delta)]> data)
    else inl InvalidToken.
Proof.
  intros Hplain. rewrite create_access_token_lifetime.
  destruct (decide (now' < now + lifetime expires_delta)) as [Hlive | Hpast].
  - apply (get_current_user_signed now' _ (now + lifetime expires_delta));
      [by apply plain_claims_insert_exp | apply lookup_insert_eq | done].
  - apply (get_current_user_expired now' _ (now + lifetime expires_delta));
      [apply lookup_insert_eq | lia].
Qed.

(** X7. When the environment does not set JWT_SECRET the signing key is the
    text "devsecret" of the source: any plain claims signed with that text,
    not yet expired and naming the role "admin", pass the guard and the admin
    gate, and the theatre is created. *)
Theorem default_secret_admits_admin
    (now e : Z) (claims : gmap string JVal) (payload : TheatrePayload) (st : Store) :
  getenv "JWT_SECRET" = None ->
  plain_claims claims ->
  claims !! "exp" = Some (JInt e) ->
  now < e ->
  claims !! "role" = Some (JStr "admin") ->
  post_theatres now (Some ("Bearer " +:+ jwt_encode claims "devsecret")) payload (Some st)
  = (inr (pretty (next_oid st)),
     Some (mkStore (coll_user st)
             (coll_theatre st
              ++ [(next_oid st,
                   Theatre.mk (tp_name payload) (tp_city payload) (tp_address payload))])
             (coll_show st) (coll_booking st) (N.succ (next_oid st)))).
Proof.
  intros Henv Hplain Hexp Hlive Hrole.
  assert (Hkey : JWT_SECRET = "devsecret") by (unfold JWT_SECRET; by rewrite Henv).
  pose proof (get_current_user_signed now claims e Hplain Hexp Hlive) as Hguard.
  rewrite Hkey in Hguard.
  unfold post_theatres, Depends_get_current_user. rewrite Hguard.
  unfold create_theatre, not_admin.
  by rewrite bool_decide_eq_false_2 by (by intros Hno; apply Hno).
Qed.

End TokensMore.

Lemma token_valid_for_its_lifetime_witness :
  @get_current_user Ref.jwt Ref.process 86399
    (Some ("Bearer " +:+ @create_access_token Ref.jwt Ref.process 0
                           {[ "sub" := JStr "7"; "exp" := JInt 5 ]} (Some 0)))
  = inr {[ "sub" := JStr "7"; "exp" := JInt 86400 ]}
  /\ @get_current_user Ref.jwt Ref.process 86400
       (Some ("Bearer " +:+ @create_access_token Ref.jwt Ref.process 0
                              {[ "sub" := JStr "7"; "exp" := JInt 5 ]} (Some 0)))
     = inl InvalidToken.
Proof.
  assert (Hplain : plain_claims {[ "sub" := JStr "7"; "exp" := JInt 5 ]})
    by (by vm_compute).
  rewrite !(@token_valid_for_its_lifetime Ref.jwt Ref.process ref_jwt_contract
              0 _ {[ "sub" := JStr "7"; "exp" := JInt 5 ]} (Some 0) Hplain).
  split; by vm_compute.
Defined.

Example zero_lifetime_is_a_day :
  <["exp" := JInt (0 + lifetime (Some 0))]>
    ({[ "sub" := JStr "7"; "exp" := JInt 5 ]} : gmap string JVal)
  = {[ "sub" := JStr "7"; "exp" := JInt 86400 ]}.
Proof. by vm_compute. Qed.

Lemma default_secret_admits_admin_witness :
  @post_theatres Ref.jwt Ref.process 10
    (Some ("Bearer " +:+ Ref.encode forged_admin_claims "devsecret")) odeon
    (Some empty_store)
  = (inr "0", Some (mkStore [] [(0%N, Theatre.mk "Odeon" "Pune" None)] [] [] 1%N)).
Proof.
  apply (@default_secret_admits_admin Ref.jwt Ref.process ref_jwt_contract
           10 100 forged_admin_claims odeon empty_store).
  - reflexivity.
  - by vm_compute.
  - by vm_compute.
  - lia.
  - by vm_compute.
Defined.

(** ** More on [register] *)

Section RegistrationMore.
Context `{J : Jwt, L : Passlib, P : Process}.

Lemma register_returns_token now salt payload db r db' :
  register now salt payload db = (inr r, db') ->
  exists st name hash,
    db = Some st
    /\ find_one (email_filter (ap_email payload)) (coll_user st) = None
    /\ register_name payload db = (inr name, db)
    /\ get_password_hash salt (ap_password payload) = inr hash
    /\ r = {| access_token :=
                create_access_token now
                  {[ "sub" := JStr (pretty (next_oid st));
                     "email" := JStr (ap_email payload);
                     "role" := JStr "user" ]} None;
              token_type := "bearer" |}
    /\ db' = Some (mkStore
               (coll_user st
                ++ [(next_oid st,
                     User.mk name (ap_email payload) hash "user" true)])
               (coll_theatre st) (coll_show st) (coll_booking st)
               (N.succ (next_oid st))).
Proof.
  destruct db as [st|]; [| by rewrite register_unconfigured].
  destruct (find_one (email_filter (ap_email payload)) (coll_user st)) as [d|] eqn:Hf.
  { rewrite register_duplicate by (by rewrite Hf). discriminate. }
  destruct (register_name_returns payload (Some st)) as (name & Hname & _).
  unfold register, mbind, handler_bind. simpl. rewrite Hf, Hname. simpl.
  destruct (get_password_hash salt (ap_password payload)) as [exc | hash] eqn:Hhash;
    [discriminate |].
  intros [= <- <-]. by exists st, name, hash.
Qed.

Lemma register_fresh now salt payload st hash :
  find_one (email_filter (ap_email payload)) (coll_user st) = None ->
  get_password_hash salt (ap_password payload) = inr hash ->
  exists r db', register now salt payload (Some st) = (inr r, db').
Proof.
  intros Hf Hhash.
  destruct (register_name_returns payload (Some st)) as (name & Hname & _).
  unfold register, mbind, handler_bind. simpl. rewrite Hf, Hname. simpl.
  rewrite Hhash. eauto.
Qed.

(** What the hashing of the password raises escapes, before anything is
    stored. *)
Lemma register_hash_raises now salt payload st exc :
  find_one (email_filter (ap_email payload)) (coll_user st) = None ->
  get_password_hash salt (ap_password payload) = inl exc ->
  register now salt payload (Some st) = (inl (Unhandled exc), Some st).
Proof.
  intros Hf Hhash.
  destruct (register_name_returns payload (Some st)) as (name & Hname & _).
  unfold register, mbind, handler_bind. simpl. rewrite Hf, Hname. simpl.
  by rewrite Hhash.
Qed.

Lemma register_failure_keeps_db now salt payload db f :
  (register now salt payload db).1 = inl f ->
  (register now salt payload db).2 = db.
Proof.
  destruct db as [st|]; [| by rewrite register_unconfigured].
  destruct (find_one (email_filter (ap_email payload)) (coll_user st)) as [d|] eqn:Hf.
  { by rewrite register_duplicate by (by rewrite Hf). }
  destruct (get_password_hash salt (ap_password payload)) as [exc | hash] eqn:Hhash.
  - by rewrite (register_hash_raises now salt payload st exc).
  - destruct (register_fresh now salt payload st hash Hf Hhash) as (r & db' & ->).
    intros H; discriminate H.
Qed.


(** X9. [register] keeps the emails of the user records pairwise distinct. *)
Theorem register_keeps_emails_unique (now : Z) (salt : string)
    (payload : AuthPayload) (db : option Store) :
  emails_unique db ->
  emails_unique (register now salt payload db).2.
Proof.
  intros Huniq.
  destruct (register now salt payload db) as [[f | r] db'] eqn:Hcall.
  - pose proof (register_failure_keeps_db now salt payload db f) as Hkeep.
    rewrite Hcall in Hkeep. simpl in Hkeep. rewrite Hkeep by done. exact Huniq.
  - apply register_returns_token in Hcall
      as (st & name & hash & -> & Hf & _ & _ & _ & ->).
    unfold emails_unique in *. simpl in *. rewrite map_app. simpl.
    apply NoDup_app. split; [done |]. split; [| apply NoDup_singleton].
    intros e He ->%list_elem_of_singleton.
    apply list_elem_of_fmap in He as (d & Hd & Hin).
    rewrite find_one_None in Hf. specialize (Hf d Hin).
    unfold email_filter in Hf. by rewrite bool_decide_eq_true_2 in Hf.
Qed.

(** X10. The name [register] stores is the given one when it is not empty;
    an empty name is treated like an absent one and replaced by the first
    field of the email split at "@". *)
Theorem register_stored_name (now : Z) (salt : string) (payload : AuthPayload)
    (db db' : option Store) (r : TokenResponse) :
  register now salt payload db = (inr r, db') ->
  exists oid u,
    last (users_of db') = Some (oid, u)
    /\ (forall n, ap_name payload = Some n -> n <> "" -> User.name u = n)
    /\ (ap_name payload = Some "" ->
        exists ws, Py.split_on "@" (ap_email payload) = User.name u :: ws).
Proof.
  intros (st & name & hash & -> & _ & Hname & _ & _ & ->)%register_returns_token.
  eexists _, _. simpl. split; [apply last_snoc |]. simpl.
  unfold register_name in Hname.
  destruct (split_on_cons "@" (ap_email payload)) as (w & ws & Hsplit).
  split.
  - intros n Hn Hne. rewrite Hn in Hname. destruct n; [done |].
    by injection Hname as <-.
  - intros Hn. rewrite Hn, Hsplit in Hname. injection Hname as <-. eauto.
Qed.

End RegistrationMore.

Lemma register_keeps_emails_unique_witness :
  emails_unique
    (@register Ref.jwt Ref.passlib Ref.process 0 "NaCl" ann_first (Some empty_store)).2.
Proof.
  apply (@register_keeps_emails_unique Ref.jwt Ref.passlib Ref.process).
  apply (bool_decide_unpack _). by vm_compute.
Defined.

Lemma register_stored_name_witness :
  exists oid u,
    last (users_of
            (@register Ref.jwt Ref.passlib Ref.process 0 "NaCl" ann_again
               (Some empty_store)).2)
    = Some (oid, u)
    /\ (forall n, ap_name ann_again = Some n -> n <> "" -> User.name u = n)
    /\ (ap_name ann_again = Some "" ->
        exists ws, Py.split_on "@" (ap_email ann_again) = User.name u :: ws).
Proof.
  eapply (@register_stored_name Ref.jwt Ref.passlib Ref.process
            0 "NaCl" ann_again (Some empty_store)).
  vm_compute. reflexivity.
Defined.

Example ann_again_stored_as_Ann :
  User.name <$> (snd <$> last (users_of
    (@register Ref.jwt Ref.passlib Ref.process 0 "NaCl" ann_again (Some empty_store)).2))
  = Some "Ann".
Proof. by vm_compute. Qed.

(** ** From registration to the guard *)

Section RegisteredUser.
Context `{J : Jwt, L : Passlib, P : Process} {C : JwtContract J}.

Lemma user_token_claims now now' (subject email role : string) :
  now' < now + 86400 ->
  get_current_user now'
    (Some ("Bearer "
           +:+ create_access_token now
                 {[ "sub" := JStr subject; "email" := JStr email;
                    "role" := JStr role ]} None))
  = inr (<["exp" := JInt (now + 86400)]>
           {[ "sub" := JStr subject; "email" := JStr email; "role" := JStr role ]}).
Proof.
  intros Hlive. rewrite create_access_token_lifetime. simpl lifetime.
  apply (get_current_user_signed now' _ (now + 86400));
    [apply plain_identity_claims | apply lookup_insert_eq | done].
Qed.

(** X11. The token [register] returns, presented as a Bearer credential
    within 24 hours, identifies the user record just created: its subject is
    the id of that record (the last of the users), its email the registered
    one, its role "user". *)
Theorem register_token_identifies_user
    (now now' : Z) (salt : string) (payload : AuthPayload)
    (db db' : option Store) (r : TokenResponse) :
  register now salt payload db = (inr r, db') ->
  now' < now + 86400 ->
  exists oid u claims,
    last (users_of db') = Some (oid, u)
    /\ User.email u = ap_email payload
    /\ User.role u = "user"
    /\ token_type r = "bearer"
    /\ get_current_user now' (Some ("Bearer " +:+ access_token r)) = inr claims
    /\ claims !! "sub" = Some (JStr (pretty oid))
    /\ claims !! "email" = Some (JStr (ap_email payload))
    /\ claims !! "role" = Some (JStr "user").
Proof.
  intros (st & name & hash & -> & _ & _ & _ & -> & ->)%register_returns_token Hlive.
  eexists _, _, _. split; [simpl; apply last_snoc |].
  cbn [access_token token_type User.email User.role].
  rewrite user_token_claims by done.
  repeat split; by simplify_map_eq.
Qed.

(** X12. A user who has just registered is no administrator: with the token
    [register] returned, the routes that create theatres and shows answer
    [Forbidden], status 403, and store nothing. *)
Theorem registered_user_is_no_admin
    (now now' : Z) (salt : string) (payload : AuthPayload)
    (db db' : option Store) (r : TokenResponse)
    (theatre : TheatrePayload) (show : ShowPayload) :
  register now salt payload db = (inr r, db') ->
  now' < now + 86400 ->
  post_theatres now' (Some ("Bearer " +:+ access_token r)) theatre db'
  = (inl Forbidden, db')
  /\ post_shows now' (Some ("Bearer " +:+ access_token r)) show db'
     = (inl Forbidden, db')
  /\ status_of Forbidden = 403.
Proof.
  intros (st & name & hash & -> & _ & _ & _ & -> & ->)%register_returns_token Hlive.
  unfold post_theatres, post_shows, Depends_get_current_user.
  cbn [access_token]. rewrite user_token_claims by done.
  unfold create_theatre, create_show.
  rewrite not_admin_true; [done |]. by simplify_map_eq.
Qed.

End RegisteredUser.

Lemma register_token_identifies_user_witness :
  exists oid u claims,
    last (users_of (Some ann_store)) = Some (oid, u)
    /\ User.email u = ap_email ann_first
    /\ User.role u = "user"
    /\ token_type ann_token = "bearer"
    /\ @get_current_user Ref.jwt Ref.process 3600
         (Some ("Bearer " +:+ access_token ann_token)) = inr claims
    /\ claims !! "sub" = Some (JStr (pretty oid))
    /\ claims !! "email" = Some (JStr (ap_email ann_first))
    /\ claims !! "role" = Some (JStr "user").
Proof.
  apply (@register_token_identifies_user Ref.jwt Ref.passlib Ref.process
           ref_jwt_contract 0 3600 "NaCl" ann_first (Some empty_store)).
  - by vm_compute.
  - lia.
Defined.

Lemma registered_user_is_no_admin_witness :
  @post_theatres Ref.jwt Ref.process 3600
    (Some ("Bearer " +:+ access_token ann_token)) odeon (Some ann_store)
  = (inl Forbidden, Some ann_store)
  /\ @post_shows Ref.jwt Ref.process 3600
       (Some ("Bearer " +:+ access_token ann_token)) matinee (Some ann_store)
     = (inl Forbidden, Some ann_store)
  /\ status_of Forbidden = 403.
Proof.
  apply (@registered_user_is_no_admin Ref.jwt Ref.passlib Ref.process
           ref_jwt_contract 0 3600 "NaCl" ann_first (Some empty_store)).
  - by vm_compute.
  - lia.
Defined.

(** ** [login] *)

Lemma find_app_None {A : Type} (f : A -> bool) (l l' : list A) :
  List.find f l = None -> List.find f (l ++ l') = List.find f l'.
Proof.
  induction l as [|x l IH]; simpl; [done |].
  destruct (f x); [done | exact IH].
Qed.

Section Login.
Context `{J : Jwt, L : Passlib, P : Process}.

Lemma login_unconfigured now payload :
  login now payload None = (inl NotConfigured, None).
Proof. reflexivity. Qed.

Lemma login_unknown now payload st :
  find_one (email_filter (ap_email payload)) (coll_user st) = None ->
  login now payload (Some st) = (inl InvalidCredentials, Some st).
Proof.
  intros Hf. unfold login, mbind, handler_bind. simpl. by rewrite Hf.
Qed.

Lemma login_found now payload st doc :
  find_one (email_filter (ap_email payload)) (coll_user st) = Some doc ->
  login now payload (Some st)
  = match verify_password (ap_password payload) (User.password_hash doc.2) with
    | inl e => (inl (Unhandled e), Some st)
    | inr false => (inl InvalidCredentials, Some st)
    | inr true =>
        (inr {| access_token :=
                  create_access_token now
                    {[ "sub" := JStr (pretty doc.1);
                       "email" := JStr (User.email doc.2);
                       "role" := JStr (User.role doc.2) ]} None;
                token_type := "bearer" |}, Some st)
    end.
Proof.
  intros Hf. unfold login, mbind, handler_bind. simpl. rewrite Hf.
  by destruct (verify_password (ap_password payload) (User.password_hash doc.2))
    as [e | [|]].
Qed.


(** X14. After [register] has stored a user under a 22-character salt,
    [login] with the same email and password returns a token and leaves the
    store as it is; the token is made from the id of the new record, the
    email and the role "user", and at the same clock reading it is the very
    token [register] returned. *)
Theorem register_then_login {PC : PasslibContract L}
    (now now2 : Z) (salt e p : string) (n n2 : option string)
    (db db' : option Store) (r : TokenResponse) :
  String.length salt = 22%nat ->
  register now salt {| ap_email := e; ap_password := p; ap_name := n |} db = (inr r, db') ->
  exists r2 oid u,
    login now2 {| ap_email := e; ap_password := p; ap_name := n2 |} db' = (inr r2, db')
    /\ last (users_of db') = Some (oid, u)
    /\ r2 = {| access_token :=
                 create_access_token now2
                   {[ "sub" := JStr (pretty oid); "email" := JStr e;
                      "role" := JStr "user" ]} None;
               token_type := "bearer" |}
    /\ (now2 = now -> r2 = r).
Proof.
  intros Hsalt
    (st & name & hash & -> & Hfree & _ & Hhash & -> & ->)%register_returns_token.
  simpl in Hfree. eexists _, _, _. split; [| split; [simpl; apply last_snoc |]].
  - erewrite login_found; cycle 1.
    { simpl. unfold find_one in *. rewrite find_app_None by done. simpl.
      unfold email_filter. simpl. by rewrite bool_decide_eq_true_2. }
    simpl. unfold verify_password, pwd_context_verify.
    unfold get_password_hash, pwd_context_hash in Hhash.
    rewrite (bcrypt_hash_identified salt p hash Hsalt Hhash).
    rewrite (bcrypt_verify_hash salt p hash Hsalt Hhash). reflexivity.
  - split; [done |]. by intros ->.
Qed.

End Login.

(** ** The stand-in password handler meets the contract *)

Lemma string_length_app (s1 s2 : string) :
  String.length (s1 +:+ s2) = (String.length s1 + String.length s2)%nat.
Proof.
  induction s1 as [|c s1 IH]; [done |].
  change (String c s1 +:+ s2) with (String c (s1 +:+ s2)). simpl. by rewrite IH.
Qed.

Lemma substring_all (s : string) : String.substring 0 (String.length s) s = s.
Proof. induction s as [|c s IH]; simpl; [done | by rewrite IH]. Qed.

Lemma substring_skip (s1 s2 : string) (m : nat) :
  String.substring (String.length s1) m (s1 +:+ s2) = String.substring 0 m s2.
Proof.
  induction s1 as [|c s1 IH]; [done |].
  change (String c s1 +:+ s2) with (String c (s1 +:+ s2)). simpl. exact IH.
Qed.

Lemma ref_passlib_contract : PasslibContract Ref.passlib.
Proof.
  split; unfold bcrypt_hash, bcrypt_verify, Ref.passlib;
    intros salt secret hash Hsalt Hhash;
    destruct (bool_decide (Ascii.zero ∈ list_ascii_of_string secret));
    try discriminate; injection Hhash as <-.
  - reflexivity.
  - f_equal. apply bool_decide_eq_true.
    set (pre := "$2b$12$" +:+ salt +:+ "$").
    assert (Hpre : String.length pre = 30%nat).
    { unfold pre. rewrite !string_length_app, Hsalt. reflexivity. }
    replace ("$2b$12$" +:+ salt +:+ "$" +:+ secret) with (pre +:+ secret)
      by (unfold pre; by rewrite !string_app_assoc).
    rewrite string_length_app, Hpre.
    replace (30 + String.length secret - 30)%nat with (String.length secret) by lia.
    rewrite <- Hpre at 1. rewrite substring_skip. apply substring_all.
Qed.

Example nul_password_is_not_hashed :
  (@register Ref.jwt Ref.passlib Ref.process 0 salt22
     {| ap_email := "nul@example.org"; ap_password := String Ascii.zero "x";
        ap_name := None |} (Some ann_store))
  = (inl (Unhandled (Py.ValueError "NULL bytes in password")), Some ann_store).
Proof. by vm_compute. Qed.

Lemma register_then_login_witness :
  exists r2 oid u,
    @login Ref.jwt Ref.passlib Ref.process 0 ann_login (Some ann_store22)
    = (inr r2, Some ann_store22)
    /\ last (users_of (Some ann_store22)) = Some (oid, u)
    /\ r2 = {| access_token :=
                 @create_access_token Ref.jwt Ref.process 0
                   {[ "sub" := JStr (pretty oid); "email" := JStr "ann@example.org";
                      "role" := JStr "user" ]} None;
               token_type := "bearer" |}
    /\ (0 = 0 -> r2 = ann_token).
Proof.
  apply (@register_then_login Ref.jwt Ref.passlib Ref.process ref_passlib_contract
           0 0 salt22 "ann@example.org" "correct horse" None (Some "ignored")
           (Some empty_store) (Some ann_store22) ann_token).
  - reflexivity.
  - by vm_compute.
Defined.

(** ** From login to the guard *)

Section LoggedIn.
Context `{J : Jwt, L : Passlib, P : Process} {C : JwtContract J}.

(** X15. The token [login] returns, presented as a Bearer credential within
    24 hours, carries the id, the email and the role of a stored user record
    with the email given; [login] itself leaves the store as it is.  So the
    role a caller acts under is the one stored with the user. *)
Theorem login_token_carries_stored_role
    (now now' : Z) (payload : AuthPayload) (db db' : option Store)
    (r : TokenResponse) :
  login now payload db = (inr r, db') ->
  now' < now + 86400 ->
  exists doc claims,
    doc ∈ users_of db
    /\ User.email doc.2 = ap_email payload
    /\ db' = db
    /\ get_current_user now' (Some ("Bearer " +:+ access_token r)) = inr claims
    /\ claims !! "sub" = Some (JStr (pretty doc.1))
    /\ claims !! "email" = Some (JStr (ap_email payload))
    /\ claims !! "role" = Some (JStr (User.role doc.2)).
Proof.
  intros Hcall Hlive.
  destruct db as [st|]; [| by rewrite login_unconfigured in Hcall].
  destruct (find_one (email_filter (ap_email payload)) (coll_user st))
    as [doc|] eqn:Hf; [| by rewrite login_unknown in Hcall].
  rewrite (login_found now payload st doc Hf) in Hcall.
  destruct (verify_password (ap_password payload) (User.password_hash doc.2))
    as [exc | [|]]; try done.
  injection Hcall as <- <-.
  apply List.find_some in Hf as [Hin Hemail].
  apply bool_decide_eq_true in Hemail.
  exists doc. eexists. split; [by apply list_elem_of_In |].
  split; [done |]. split; [done |].
  cbn [access_token]. rewrite user_token_claims by done.
  rewrite Hemail. repeat split; by simplify_map_eq.
Qed.

End LoggedIn.

Lemma login_token_carries_stored_role_witness :
  exists doc claims,
    doc ∈ users_of (Some root_store)
    /\ User.email doc.2 = ap_email root_login
    /\ Some root_store = Some root_store
    /\ @get_current_user Ref.jwt Ref.process 60
         (Some ("Bearer "
                +:+ access_token root_token)) = inr claims
    /\ claims !! "sub" = Some (JStr (pretty doc.1))
    /\ claims !! "email" = Some (JStr (ap_email root_login))
    /\ claims !! "role" = Some (JStr (User.role doc.2)).
Proof.
  apply (@login_token_carries_stored_role Ref.jwt Ref.passlib Ref.process
           ref_jwt_contract 0 60 root_login (Some root_store)).
  - by vm_compute.
  - lia.
Defined.

(** ** Listings *)

Lemma elem_of_stringify_ids {D : Type} (docs : list (ObjectId * D)) (id : string) (d : D) :
  (id, d) ∈ stringify_ids docs <-> exists oid, id = pretty oid /\ (oid, d) ∈ docs.
Proof.
  unfold stringify_ids. rewrite list_elem_of_fmap. split.
  - intros ([oid d'] & [= -> ->] & Hin). by exists oid.
  - intros (oid & -> & Hin). by exists (oid, d).
Qed.

Lemma elem_of_List_filter {A : Type} (f : A -> bool) (l : list A) (x : A) :
  x ∈ List.filter f l <-> x ∈ l /\ f x = true.
Proof. by rewrite !list_elem_of_In, List.filter_In. Qed.

Lemma my_bookings_returns user st sub :
  user !! "sub" = Some sub ->
  my_bookings user (Some st)
  = (inr (stringify_ids (List.filter (user_id_filter sub) (coll_booking st))), Some st).
Proof.
  intros Hu. unfold my_bookings, mbind, handler_bind, claims_getitem. by rewrite Hu.
Qed.

Lemma my_bookings_no_subject user db :
  user !! "sub" = None ->
  my_bookings user db = (inl (Unhandled (Py.KeyError "sub")), db).
Proof.
  intros Hu. unfold my_bookings, mbind, handler_bind, claims_getitem. by rewrite Hu.
Qed.

(** X16. [my_bookings] returns the caller's bookings and no others: every
    item is a stored booking, under its id as a string, whose [user_id] is
    the subject of the caller, and every stored booking with that [user_id]
    is among the items, whatever its payment status.  A caller without a
    subject gets a [KeyError]. *)
Theorem my_bookings_are_the_callers (user : gmap string JVal) (db : option Store) :
  (forall items id b,
     (my_bookings user db).1 = inr items -> (id, b) ∈ items ->
     user !! "sub" = Some (JStr (Booking.user_id b))
     /\ exists oid, id = pretty oid /\ (oid, b) ∈ bookings_of db)
  /\ (forall oid b,
        (oid, b) ∈ bookings_of db ->
        user !! "sub" = Some (JStr (Booking.user_id b)) ->
        exists items, (my_bookings user db).1 = inr items /\ (pretty oid, b) ∈ items)
  /\ (user !! "sub" = None ->
      (my_bookings user db).1 = inl (Unhandled (Py.KeyError "sub"))).
Proof.
  split_and!.
  - intros items id b Hcall Hin.
    destruct (user !! "sub") as [sub|] eqn:Hu;
      [| by rewrite my_bookings_no_subject in Hcall].
    destruct db as [st|];
      [| unfold my_bookings, mbind, handler_bind, claims_getitem in Hcall;
         by rewrite Hu in Hcall].
    rewrite (my_bookings_returns user st sub Hu) in Hcall.
    injection Hcall as <-.
    apply elem_of_stringify_ids in Hin as (oid & -> & Hin).
    apply elem_of_List_filter in Hin as [Hin Hflt].
    destruct sub as [uid|n]; [| done].
    apply bool_decide_eq_true in Hflt. simpl in Hflt. subst uid.
    split; [done |]. by exists oid.
  - intros oid b Hin Hu. destruct db as [st|]; [| inversion Hin].
    rewrite (my_bookings_returns user st _ Hu). eexists. split; [done |].
    apply elem_of_stringify_ids. exists oid. split; [done |].
    apply elem_of_List_filter. split; [done |]. simpl.
    by apply bool_decide_eq_true.
  - intros Hu. by rewrite my_bookings_no_subject.
Qed.

(** X17. A booking that [create_booking] has returned is listed by
    [my_bookings] for the same caller: under the returned id, with the
    requested show, seats and amount, and payment status "pending". *)
Theorem created_booking_is_listed
    (payload : BookingPayload) (user : gmap string JVal) (db db' : option Store)
    (r : BookingResponse) :
  create_booking payload user db = (inr r, db') ->
  exists items b,
    my_bookings user db' = (inr items, db')
    /\ (br_id r, b) ∈ items
    /\ Booking.show_id b = bp_show_id payload
    /\ Booking.seats b = bp_seats payload
    /\ Booking.amount b = bp_amount payload
    /\ Booking.payment_status b = "pending".
Proof.
  intros (st & uid & -> & Hu & _ & -> & ->)%create_booking_returns.
  eexists _, (Booking.mk uid (bp_show_id payload) (bp_seats payload)
                         (bp_amount payload) "pending" None).
  split; [by apply my_bookings_returns |].
  split; [| done]. simpl.
  apply elem_of_stringify_ids. eexists. split; [done |].
  apply elem_of_List_filter. split.
  - apply elem_of_app. right. apply list_elem_of_here.
  - simpl. by apply bool_decide_eq_true.
Qed.

Lemma created_booking_is_listed_witness :
  exists items b,
    my_bookings caller_u2 (create_booking request_A3 caller_u2 (Some store_A1A2)).2
    = (inr items, (create_booking request_A3 caller_u2 (Some store_A1A2)).2)
    /\ ("1", b) ∈ items
    /\ Booking.show_id b = "s1"
    /\ Booking.seats b = ["A3"]
    /\ Booking.amount b = 250%float
    /\ Booking.payment_status b = "pending".
Proof.
  apply (created_booking_is_listed request_A3 caller_u2 (Some store_A1A2) _
           {| br_id := "1"; br_status := "pending_payment" |}).
  by vm_compute.
Defined.

(** X18. What [list_theatres] and [list_shows] return from a configured
    store: the stored records, under their ids as strings, that agree with
    every filter given.  A city or theatre id that is absent or empty does
    not filter; a movie id filters whenever it is present, also when it is
    0. *)
Theorem listings_filter (city theatre_id : option string) (movie_id : option Z)
    (st : Store) :
  (exists items,
     list_theatres city (Some st) = (inr items, Some st)
     /\ forall id t,
          (id, t) ∈ items
          <-> exists oid,
                id = pretty oid /\ (oid, t) ∈ coll_theatre st
                /\ (forall c, city = Some c -> c <> "" -> Theatre.city t = c))
  /\ (exists items,
        list_shows theatre_id movie_id (Some st) = (inr items, Some st)
        /\ forall id s,
             (id, s) ∈ items
             <-> exists oid,
                   id = pretty oid /\ (oid, s) ∈ coll_show st
                   /\ (forall t, theatre_id = Some t -> t <> "" -> Show.theatre_id s = t)
                   /\ (forall m, movie_id = Some m -> Show.movie_id s = m)).
Proof.
  split; eexists; (split; [reflexivity |]).
  - intros id t. rewrite elem_of_stringify_ids.
    split; intros (oid & -> & Hin); exists oid; (split; [done |]).
    + apply elem_of_List_filter in Hin as [Hin Hq]. split; [done |].
      intros c -> Hc. simpl in Hq. destruct c; [done |].
      by apply bool_decide_eq_true in Hq.
    + destruct Hin as [Hin Hc]. apply elem_of_List_filter. split; [done |].
      unfold theatre_query. destruct city as [[|a c]|]; try done.
      apply bool_decide_eq_true. simpl. by apply Hc.
  - intros id s. rewrite elem_of_stringify_ids.
    split; intros (oid & -> & Hin); exists oid; (split; [done |]).
    + apply elem_of_List_filter in Hin as [Hin Hq]. split; [done |].
      unfold show_query in Hq. apply andb_true_iff in Hq as [Ht Hm]. split.
      * intros t -> Hne. destruct t; [done |]. by apply bool_decide_eq_true in Ht.
      * intros m ->. by apply bool_decide_eq_true in Hm.
    + destruct Hin as (Hin & Ht & Hm). apply elem_of_List_filter. split; [done |].
      unfold show_query. apply andb_true_iff. split.
      * destruct theatre_id as [[|a t]|]; try done.
        apply bool_decide_eq_true. simpl. by apply Ht.
      * destruct movie_id as [m|]; [| done].
        apply bool_decide_eq_true. simpl. by apply Hm.
Qed.

Example movie_zero_filters :
  (list_shows (Some "") (Some 0)
     (Some (mkStore [] []
              [(0%N, Show.mk "0" 603 1767268800 250%float 80);
               (1%N, Show.mk "9" 0 1767268800 0%float 1)] [] 2%N))).1
  = inr [("1", Show.mk "9" 0 1767268800 0%float 1)].
Proof. by vm_compute. Qed.

(** ** More on the admin-only handlers *)

Lemma not_admin_false (user : gmap string JVal) :
  not_admin user = false <-> user !! "role" = Some (JStr "admin").
Proof.
  unfold not_admin. rewrite bool_decide_eq_false. split; [| by intros -> Hn].
  intros Hnn. by destruct (decide (user !! "role" = Some (JStr "admin"))).
Qed.

Lemma create_theatre_admin payload user st :
  user !! "role" = Some (JStr "admin") ->
  create_theatre payload user (Some st)
  = (inr (pretty (next_oid st)),
     Some (mkStore (coll_user st)
             (coll_theatre st
              ++ [(next_oid st,
                   Theatre.mk (tp_name payload) (tp_city payload) (tp_address payload))])
             (coll_show st) (coll_booking st) (N.succ (next_oid st)))).
Proof.
  intros Hrole%not_admin_false. unfold create_theatre. by rewrite Hrole.
Qed.

Lemma create_theatre_returns payload user db id db' :
  create_theatre payload user db = (inr id, db') ->
  exists st,
    db = Some st
    /\ user !! "role" = Some (JStr "admin")
    /\ id = pretty (next_oid st)
    /\ db' = Some (mkStore (coll_user st)
               (coll_theatre st
                ++ [(next_oid st,
                     Theatre.mk (tp_name payload) (tp_city payload)
                                (tp_address payload))])
               (coll_show st) (coll_booking st) (N.succ (next_oid st))).
Proof.
  unfold create_theatre. destruct (not_admin user) eqn:Hrole; [done |].
  apply not_admin_false in Hrole. destruct db as [st|]; [| done].
  intros [= <- <-]. by exists st.
Qed.

Lemma create_show_admin payload user st :
  user !! "role" = Some (JStr "admin") ->
  create_show payload user (Some st)
  = if PrimFloat.leb 0%float (sp_price payload)
       && bool_decide (1 <= sp_seats_total payload <= 300)
    then (inr (pretty (next_oid st)),
          Some (mkStore (coll_user st) (coll_theatre st)
                  (coll_show st
                   ++ [(next_oid st,
                        Show.mk (sp_theatre_id payload) (sp_movie_id payload)
                                (sp_show_time payload) (sp_price payload)
                                (sp_seats_total payload))])
                  (coll_booking st) (N.succ (next_oid st))))
    else (inl (Unhandled Py.ValidationError), Some st).
Proof.
  intros Hrole%not_admin_false.
  unfold create_show, Show_new, mbind, handler_bind. rewrite Hrole.
  by destruct (PrimFloat.leb 0%float (sp_price payload)
               && bool_decide (1 <= sp_seats_total payload <= 300)).
Qed.

(** X19. [create_theatre] returns an id only to a caller whose role is
    "admin", and the theatre it has created is then listed by
    [list_theatres], under that id and with the name, city and address given,
    for every city filter that is absent, empty or the theatre's city. *)
Theorem created_theatre_is_listed
    (payload : TheatrePayload) (user : gmap string JVal) (db db' : option Store)
    (id : string) :
  create_theatre payload user db = (inr id, db') ->
  user !! "role" = Some (JStr "admin")
  /\ forall city,
       (forall c, city = Some c -> c <> "" -> c = tp_city payload) ->
       exists items,
         list_theatres city db' = (inr items, db')
         /\ (id, Theatre.mk (tp_name payload) (tp_city payload) (tp_address payload))
            ∈ items.
Proof.
  intros (st & -> & Hrole & -> & ->)%create_theatre_returns.
  split; [done |]. intros city Hcity.
  eexists. split; [reflexivity |].
  apply elem_of_stringify_ids. eexists. split; [done |].
  apply elem_of_List_filter. split.
  - simpl. apply elem_of_app. right. apply list_elem_of_here.
  - unfold theatre_query. destruct city as [[|a c]|]; try done.
    apply bool_decide_eq_true. simpl. symmetry. by apply Hcity.
Qed.

Lemma created_theatre_is_listed_witness :
  caller_admin !! "role" = Some (JStr "admin")
  /\ forall city,
       (forall c, city = Some c -> c <> "" -> c = tp_city odeon) ->
       exists items,
         list_theatres city (create_theatre odeon caller_admin (Some empty_store)).2
         = (inr items, (create_theatre odeon caller_admin (Some empty_store)).2)
         /\ ("0", Theatre.mk (tp_name odeon) (tp_city odeon) (tp_address odeon))
            ∈ items.
Proof.
  apply (created_theatre_is_listed odeon caller_admin (Some empty_store)).
  by vm_compute.
Defined.

(** X20. For an admin, [create_show] stores the show exactly when the price
    is at least 0 (which a NaN is not) and the number of seats is between 1
    and 300; otherwise the schema's [ValidationError] escapes, status 500,
    and nothing is stored.  Whether the theatre of the show exists is not
    looked at. *)
Theorem create_show_validates (payload : ShowPayload) (user : gmap string JVal)
    (st : Store) :
  user !! "role" = Some (JStr "admin") ->
  (PrimFloat.leb 0%float (sp_price payload) = true
   /\ 1 <= sp_seats_total payload <= 300 ->
   create_show payload user (Some st)
   = (inr (pretty (next_oid st)),
      Some (mkStore (coll_user st) (coll_theatre st)
              (coll_show st
               ++ [(next_oid st,
                    Show.mk (sp_theatre_id payload) (sp_movie_id payload)
                            (sp_show_time payload) (sp_price payload)
                            (sp_seats_total payload))])
              (coll_booking st) (N.succ (next_oid st)))))
  /\ (~ (PrimFloat.leb 0%float (sp_price payload) = true
         /\ 1 <= sp_seats_total payload <= 300) ->
      create_show payload user (Some st) = (inl (Unhandled Py.ValidationError), Some st))
  /\ status_of (Unhandled Py.ValidationError) = 500.
Proof.
  intros Hrole. rewrite (create_show_admin payload user st Hrole).
  split; [| split; [| done]].
  - intros [-> Hseats]. by rewrite bool_decide_eq_true_2.
  - intros Hbad.
    destruct (PrimFloat.leb 0%float (sp_price payload)) eqn:Hprice; [| done].
    rewrite bool_decide_eq_false_2; [done |]. intros Hseats. by apply Hbad.
Qed.

Lemma create_show_validates_witness :
  create_show unlisted caller_admin (Some empty_store)
  = (inr "0",
     Some (mkStore [] []
             [(0%N, Show.mk "no such theatre" 0 1767268800 0%float 1)] [] 1%N))
  /\ create_show overbooked caller_admin (Some empty_store)
     = (inl (Unhandled Py.ValidationError), Some empty_store).
Proof.
  split.
  - apply (create_show_validates unlisted caller_admin empty_store); [by vm_compute |].
    split; [by vm_compute | simpl; lia].
  - apply (create_show_validates overbooked caller_admin empty_store); [by vm_compute |].
    intros [_ Hseats]. simpl in Hseats. lia.
Defined.

Example nan_price_is_refused :
  (create_show
     {| sp_theatre_id := "0"; sp_movie_id := 603; sp_show_time := 0;
        sp_price := PrimFloat.nan; sp_seats_total := 80 |}
     caller_admin (Some empty_store)).1
  = inl (Unhandled Py.ValidationError).
Proof. by vm_compute. Qed.

(** ** What the handlers leave alone *)

Lemma store_extends_refl (db : option Store) : store_extends db db.
Proof. by repeat split. Qed.

Section Frame.
Context `{J : Jwt, L : Passlib, P : Process}.

Lemma login_keeps_db now payload db : (login now payload db).2 = db.
Proof.
  destruct db as [st|]; [| done].
  destruct (find_one (email_filter (ap_email payload)) (coll_user st))
    as [doc|] eqn:Hf.
  - rewrite (login_found now payload st doc Hf).
    by destruct (verify_password (ap_password payload) (User.password_hash doc.2))
      as [exc | [|]].
  - by rewrite login_unknown.
Qed.

(** X22. The handlers that write only append: after [register],
    [create_theatre], [create_show] and [create_booking] every collection
    still starts with the records it held, unchanged and in place.  No handler
    removes a record or alters one, so a booking once made holds its seats
    for good. *)
Theorem handlers_only_append
    (now : Z) (salt : string) (auth : AuthPayload) (theatre : TheatrePayload)
    (show : ShowPayload) (booking : BookingPayload) (user : gmap string JVal)
    (db : option Store) :
  store_extends db (register now salt auth db).2
  /\ store_extends db (create_theatre theatre user db).2
  /\ store_extends db (create_show show user db).2
  /\ store_extends db (create_booking booking user db).2.
Proof.
  split_and!.
  - destruct (register now salt auth db) as [[f | r] db'] eqn:Hcall.
    + pose proof (register_failure_keeps_db now salt auth db f) as Hkeep.
      rewrite Hcall in Hkeep. simpl in *. rewrite Hkeep by done.
      apply store_extends_refl.
    + apply register_returns_token in Hcall
        as (st & name & hash & -> & _ & _ & _ & _ & ->).
      repeat split; simpl; try done. by apply prefix_app_r.
  - unfold create_theatre. destruct (not_admin user); [apply store_extends_refl |].
    destruct db as [st|]; [| apply store_extends_refl].
    repeat split; simpl; try done. by apply prefix_app_r.
  - unfold create_show, Show_new, mbind, handler_bind.
    destruct (not_admin user); [apply store_extends_refl |].
    destruct (PrimFloat.leb 0%float (sp_price show)
              && bool_decide (1 <= sp_seats_total show <= 300));
      [| apply store_extends_refl].
    destruct db as [st|]; [| apply store_extends_refl].
    repeat split; simpl; try done. by apply prefix_app_r.
  - destruct (create_booking_cases booking user db)
      as [[f ->] | (st & r & b & -> & -> & _)]; [apply store_extends_refl |].
    repeat split; simpl; try done. by apply prefix_app_r.
Qed.

(** X23. The handlers that read do not write: [login], [my_bookings],
    [list_theatres] and [list_shows] return the store as they found it,
    whether they succeed or fail. *)
Theorem readers_keep_the_store
    (now : Z) (auth : AuthPayload) (user : gmap string JVal)
    (city theatre_id : option string) (movie_id : option Z) (db : option Store) :
  (login now auth db).2 = db
  /\ (my_bookings user db).2 = db
  /\ (list_theatres city db).2 = db
  /\ (list_shows theatre_id movie_id db).2 = db.
Proof.
  split_and!.
  - apply login_keeps_db.
  - unfold my_bookings, mbind, handler_bind, claims_getitem.
    destruct (user !! "sub"); [| done]. by destruct db.
  - by destruct db.
  - by destruct db.
Qed.

End Frame.

(** ** The booking scenario of the interface description *)

Example booking_scenario :
  let after_first :=
    (create_booking
       {| bp_show_id := "s1"; bp_seats := ["A1"; "A2"]; bp_amount := 500%float |}
       caller_u2 (Some empty_store)).2 in
  (create_booking request_A2A3 caller_admin after_first).1 = inl SeatConflict
  /\ (create_booking request_A3 caller_admin after_first).1
     = inr {| br_id := "1"; br_status := "pending_payment" |}.
Proof. by vm_compute. Qed.
